(** * boltons.ecoutils: runtime profile and shell quoting

  A shallow embedding of [src/boltons/ecoutils.py].  Python [str] values
  are Rocq strings, Python dictionaries are finite maps keyed by strings,
  and code that may raise returns a [result]. *)

From Stdlib Require Import ZArith QArith Ascii String List Lia HexadecimalString.
From stdpp Require Import base option gmap strings list fin_maps.

Set Warnings "-register-all".
Local Open Scope Z_scope.

(** ** Python values and exceptions *)

(** The JSON-serializable values a profile is built from. *)
Inductive value : Type :=
| VNone
| VStr (s : string)
| VInt (z : Z)
| VBool (b : bool)
| VFloat (q : Q)
| VList (l : list value)
| VDict (d : gmap string value).

(** The exception classes the module meets.  [TypeError] and [ValueError]
  carry the datum that the source formats into the message with [%r].
  [KeyboardInterrupt] and [SystemExit] derive from [BaseException] only, so
  [except Exception] lets them through. *)
Inductive exn : Type :=
| TypeError (about : list string)
| ValueError (about : string)
| AttributeError
| ImportError
| OSError
| KeyError (key : string)
| KeyboardInterrupt
| SystemExit.

Definition is_Exception (e : exn) : bool :=
match e with
| KeyboardInterrupt | SystemExit => false
| _ => true
end.

Inductive result (A : Type) : Type :=
| Ok (a : A)
| Raise (e : exn).
Arguments Ok {A} a.
Arguments Raise {A} e.

(** ** String primitives of the Python runtime *)

Module PyStr.

Definition chr (n : nat) : ascii := ascii_of_nat n.

Definition backslash : ascii := chr 92.
Definition dquote : ascii := chr 34.
Definition squote : ascii := chr 39.
Definition space : ascii := chr 32.
Definition tab : ascii := chr 9.

Definition str1 (c : ascii) : string := String c EmptyString.

(** [c in s] for a one-character [c]. *)
Fixpoint contains (c : ascii) (s : string) : bool :=
  match s with
  | EmptyString => false
  | String d s' => if Ascii.eqb c d then true else contains c s'
  end.

(** [sep.join(l)] *)
Fixpoint join (sep : string) (l : list string) : string :=
  match l with
  | [] => EmptyString
  | [x] => x
  | x :: l' => x +:+ sep +:+ join sep l'
  end.

(** [s * n] *)
Fixpoint repeat (s : string) (n : nat) : string :=
  match n with
  | O => EmptyString
  | S n' => s +:+ repeat s n'
  end.

(** [s.replace(old, new)] for a one-character [old]: every occurrence,
    left to right. *)
Fixpoint replace1 (old : ascii) (new : string) (s : string) : string :=
  match s with
  | EmptyString => EmptyString
  | String c s' =>
      if Ascii.eqb c old then new +:+ replace1 old new s'
      else String c (replace1 old new s')
  end.

(** [s.rjust(width, fill)] *)
Definition rjust (width : nat) (fill : ascii) (s : string) : string :=
  repeat (str1 fill) (width - String.length s) +:+ s.

Definition digit (d : Z) : ascii := chr (48 + Z.to_nat d).

(** The octal digits of [n], most significant first; [fuel] bounds their
    number. *)
Fixpoint oct_digits (fuel : nat) (n : Z) (acc : string) : string :=
  match fuel with
  | O => acc
  | S fuel' =>
      let acc := String (digit (n mod 8)) acc in
      if n / 8 =? 0 then acc else oct_digits fuel' (n / 8) acc
  end.

(** [oct(n)] for [n >= 0]: Python 2 writes [0] then the digits (and just
    [0] for zero), Python 3 writes [0o] then the digits. *)
Definition oct (py3 : bool) (n : Z) : string :=
  let digits := oct_digits (S (Z.to_nat (Z.log2 n))) n EmptyString in
  if py3 then "0o" +:+ digits
  else if n =? 0 then "0" else "0" +:+ digits.

(** [hex(n)] of the integer a 128-bit draw returns: a Python 2 long ends in
    [L]. *)
Definition hex (py3 : bool) (n : N) : string :=
  let digits := HexadecimalString.NilZero.string_of_uint (N.to_hex_uint n) in
  if py3 then "0x" +:+ digits else "0x" +:+ digits +:+ "L".

(** [s[2:-1]] *)
Definition slice_2_m1 (s : string) : string :=
  let n := String.length s in
  String.substring 2 (n - 1 - 2) s.

(** [s.lower()] on ASCII letters. *)
Definition lower_char (c : ascii) : ascii :=
  let n := nat_of_ascii c in
  if ((65 <=? n) && (n <=? 90))%nat then chr (n + 32) else c.

Fixpoint lower (s : string) : string :=
  match s with
  | EmptyString => EmptyString
  | String c s' => String (lower_char c) (lower s')
  end.

(** [c.isspace()]: the ASCII white space, and for a Python 3 [str] also the
    separators 28..31, NEL and the no-break space. *)
Definition isspace (py3 : bool) (c : ascii) : bool :=
  let n := nat_of_ascii c in
  ((9 <=? n) && (n <=? 13))%nat || (n =? 32)%nat
  || (py3 && (((28 <=? n) && (n <=? 31))%nat || (n =? 133)%nat || (n =? 160)%nat)).

(** [s.split()]: the maximal runs of characters that are not white space. *)
Fixpoint split_from (py3 : bool) (cur : option string) (s : string) : list string :=
  match s with
  | EmptyString =>
      match cur with Some w => [w] | None => [] end
  | String c s' =>
      if isspace py3 c then
        match cur with
        | Some w => w :: split_from py3 None s'
        | None => split_from py3 None s'
        end
      else
        split_from py3 (Some (default EmptyString cur +:+ str1 c)) s'
  end.

Definition split (py3 : bool) (s : string) : list string :=
  split_from py3 None s.

End PyStr.

(** ** The shell escaping ([_escape_shell_args], [_args2sh], [_args2cmd]) *)

Module Quoter.
Import PyStr.

(** The complement of the character class in [_find_sh_unsafe]:
    [a-zA-Z0-9_@%+=:,./-]. *)
Definition sh_safe_char (c : ascii) : bool :=
  let n := nat_of_ascii c in
  ((97 <=? n) && (n <=? 122))%nat
  || ((65 <=? n) && (n <=? 90))%nat
  || ((48 <=? n) && (n <=? 57))%nat
  || contains c "_@%+=:,./-".

(** [_find_sh_unsafe(arg)]: the first character outside the safe set, with
    its position, or [None]. *)
Fixpoint find_sh_unsafe_from (i : nat) (arg : string) : option (nat * ascii) :=
  match arg with
  | EmptyString => None
  | String c arg' =>
      if sh_safe_char c then find_sh_unsafe_from (S i) arg' else Some (i, c)
  end.

Definition _find_sh_unsafe (arg : string) : option (nat * ascii) :=
  find_sh_unsafe_from 0 arg.

(** The replacement text of [arg.replace] in [_args2sh]. *)
Definition sh_squote_escape : string :=
  String squote (String dquote (String squote (String dquote (str1 squote)))).

(** One iteration of the [for arg in args] loop of [_args2sh]. *)
Definition args2sh_step (ret_list : list string) (arg : string) : list string :=
  if String.eqb arg EmptyString then ret_list ++ [str1 squote +:+ str1 squote]
  else match _find_sh_unsafe arg with
       | None => ret_list ++ [arg]
       | Some _ =>
           ret_list ++
             [str1 squote +:+ replace1 squote sh_squote_escape arg +:+ str1 squote]
       end.

(** [_args2sh(args, sep)]; the source joins with a space whatever [sep] is. *)
Definition _args2sh (args : list string) (sep : string) : string :=
  join " " (fold_left args2sh_step args []).

(** The inner [for c in arg] loop of [_args2cmd], on the pair
    [(result, bs_buf)]. *)
Definition args2cmd_char (st : list string * list string) (c : ascii)
  : list string * list string :=
  let '(result, bs_buf) := st in
  if Ascii.eqb c backslash then (result, bs_buf ++ [str1 c])
  else if Ascii.eqb c dquote then
    (result ++ [repeat (repeat (str1 backslash) (length bs_buf)) 2]
            ++ [String backslash (str1 dquote)], [])
  else
    match bs_buf with
    | [] => (result ++ [str1 c], bs_buf)
    | _ :: _ => ((result ++ bs_buf) ++ [str1 c], [])
    end.

Fixpoint string_fold {A : Type} (f : A -> ascii -> A) (s : string) (a : A) : A :=
  match s with
  | EmptyString => a
  | String c s' => string_fold f s' (f a c)
  end.

(** [needquote = (" " in arg) or ("\t" in arg) or not arg] *)
Definition needquote (arg : string) : bool :=
  contains space arg || contains tab arg || String.eqb arg EmptyString.

(** One iteration of the [for arg in args] loop of [_args2cmd]. *)
Definition args2cmd_step (result : list string) (arg : string) : list string :=
  let result := match result with [] => result | _ :: _ => result ++ [" "] end in
  let result := if needquote arg then result ++ [str1 dquote] else result in
  let '(result, bs_buf) := string_fold args2cmd_char arg (result, []) in
  let result := match bs_buf with [] => result | _ :: _ => result ++ bs_buf end in
  if needquote arg then (result ++ bs_buf) ++ [str1 dquote] else result.

(** [_args2cmd(args, sep)]; [sep] is not used by the source. *)
Definition _args2cmd (args : list string) (sep : string) : string :=
  join EmptyString (fold_left args2cmd_step args []).

(** [_escape_shell_args(args, sep, style)].  [style] is [None] for the
    Python [None]; [platform] is [sys.platform]. *)
Definition _escape_shell_args (platform : string) (args : list string)
    (sep : string) (style : option string) : result string :=
  let style :=
    match style with
    | Some s => if String.eqb s EmptyString then None else Some s
    | None => None
    end in
  let style :=
    match style with
    | Some s => s
    | None => if String.eqb platform "win32" then "cmd" else "sh"
    end in
  if String.eqb style "sh" then Ok (_args2sh args sep)
  else if String.eqb style "cmd" then Ok (_args2cmd args sep)
  else Raise (ValueError style).

End Quoter.

(** ** Reading a quoted command line back

  The repository only writes command lines.  The two readers below are the
  conventions its output is meant for. *)

Module Reader.
Import PyStr.

Definition push (cur : option string) (c : ascii) : option string :=
  match cur with
  | Some w => Some (w +:+ str1 c)
  | None => Some (str1 c)
  end.

Definition start (cur : option string) : option string :=
  match cur with
  | Some w => Some w
  | None => Some EmptyString
  end.

Definition close (cur : option string) (words : list string) : list string :=
  match cur with
  | Some w => w :: words
  | None => words
  end.

Inductive sh_mode : Type := Bare | Single | Double.

Definition newline : ascii := chr 10.
Definition dollar : ascii := chr 36.
Definition backquote : ascii := chr 96.

(** Unquoted characters that start an operator, an expansion or a comment
    in the POSIX shell language: the reader gives up on them. *)
Definition sh_special (c : ascii) : bool :=
  Ascii.eqb c newline || contains c "|&;<>()$*?[#~" || Ascii.eqb c backquote.

(** Modelled from the spec: the POSIX shell tokenizer of section 4.3 (token
    recognition and quote removal of the Shell Command Language), which the
    repository does not contain.  Blanks separate words; single quotes keep
    every character; double quotes keep every character but the backslash
    before [$], backquote, double quote, backslash and newline; an unquoted
    backslash keeps the next character.  [None] when a quote is left open
    or the line is more than a list of plain words. *)
Fixpoint sh_scan (mode : sh_mode) (cur : option string) (s : string)
  : option (list string) :=
  match s with
  | EmptyString =>
      match mode with
      | Bare => Some (close cur [])
      | _ => None
      end
  | String c s' =>
      match mode with
      | Single =>
          if Ascii.eqb c squote then sh_scan Bare cur s'
          else sh_scan Single (push cur c) s'
      | Double =>
          if Ascii.eqb c dquote then sh_scan Bare cur s'
          else if Ascii.eqb c backslash then
            match s' with
            | EmptyString => None
            | String d s'' =>
                if Ascii.eqb d newline then sh_scan Double cur s''
                else if Ascii.eqb d dollar || Ascii.eqb d backquote
                        || Ascii.eqb d dquote || Ascii.eqb d backslash
                then sh_scan Double (push cur d) s''
                else sh_scan Double (push (push cur c) d) s''
            end
          else if Ascii.eqb c dollar || Ascii.eqb c backquote then None
          else sh_scan Double (push cur c) s'
      | Bare =>
          if Ascii.eqb c space || Ascii.eqb c tab then
            option_map (close cur) (sh_scan Bare None s')
          else if Ascii.eqb c squote then sh_scan Single (start cur) s'
          else if Ascii.eqb c dquote then sh_scan Double (start cur) s'
          else if Ascii.eqb c backslash then
            match s' with
            | EmptyString => None
            | String d s'' =>
                if Ascii.eqb d newline then sh_scan Bare cur s''
                else sh_scan Bare (push cur d) s''
            end
          else if sh_special c then None
          else sh_scan Bare (push cur c) s'
      end
  end.

Definition sh_tokenize (line : string) : option (list string) :=
  sh_scan Bare None line.

Definition push_backslashes (cur : option string) (n : nat) : option string :=
  match n with
  | O => cur
  | S _ => Some (default EmptyString cur +:+ repeat (str1 backslash) n)
  end.

(** Modelled from the spec: the Windows command-line parser of section 4.3,
    which the repository does not contain.  [n] backslashes before a double
    quote give [n/2] backslashes, and the quote is literal when [n] is odd
    and toggles quoting when [n] is even; backslashes not before a quote
    are literal; a space or tab outside quotes ends the argument.
    [nbs] is the length of the backslash run read so far. *)
Fixpoint cmd_scan (inq : bool) (nbs : nat) (cur : option string) (s : string)
  : list string :=
  match s with
  | EmptyString => close (push_backslashes cur nbs) []
  | String c s' =>
      if Ascii.eqb c backslash then cmd_scan inq (S nbs) cur s'
      else if Ascii.eqb c dquote then
        let cur := push_backslashes (start cur) (Nat.div2 nbs) in
        if Nat.even nbs then cmd_scan (negb inq) 0 cur s'
        else cmd_scan inq 0 (push cur c) s'
      else
        let cur := push_backslashes cur nbs in
        if (Ascii.eqb c space || Ascii.eqb c tab) && negb inq then
          close cur (cmd_scan false 0 None s')
        else cmd_scan inq 0 (push cur c) s'
  end.

Definition cmd_parse (line : string) : list string :=
  cmd_scan false 0 None line.

End Reader.

(** ** Module-level state and the profile builder *)

Module Ecoutils.
Import PyStr Quoter.

(** [try: body / except Exception: handler] *)
Definition try_except_Exception {A : Type} (body : result A) (handler : A)
  : result A :=
  match body with
  | Ok a => Ok a
  | Raise e => if is_Exception e then Ok handler else Raise e
  end.

Definition result_bind {A B : Type} (r : result A) (k : A -> result B)
  : result B :=
  match r with
  | Ok a => k a
  | Raise e => Raise e
  end.

(** *** What the interpreter and the host answer while the module loads *)

Record ImportEnv : Type := {
  ie_version_major : Z;                 (* sys.version_info[0] *)
  ie_getrandbits_128 : N;               (* random.getrandbits(128) *)
  ie_calcsize_P : Z;                    (* struct.calcsize("P") *)
  ie_maxunicode : option Z;             (* sys.maxunicode, when present *)
  ie_import_readline : result unit;
  ie_sqlite_version : result string;    (* import sqlite3; sqlite3.sqlite_version *)
  ie_import_ssl : result unit;
  ie_ssl_OPENSSL_VERSION : result string;
  ie_tkinter_TkVersion : result string; (* import; str(tkinter.TkVersion) *)
  ie_zlib_version : result string;
  ie_expat_version : result string;
  ie_cpu_count : result Z;
  ie_import_threading : result unit;
  ie_has_ipv6 : result bool;
  ie_getrlimit_NOFILE : result (Z * Z);
  ie_utcnow : string;                   (* str(datetime.datetime.utcnow()) *)
  ie_timezone : Z                       (* time.timezone *)
}.

(** The module globals. *)
Record Globals : Type := {
  ECO_VERSION : string;
  PY_GT_2 : bool;
  INSTANCE_ID : string;
  IS_64BIT : bool;
  HAVE_UCS4 : bool;
  HAVE_READLINE : bool;
  SQLITE_VERSION : string;
  OPENSSL_VERSION : string;
  TKINTER_VERSION : string;
  ZLIB_VERSION : string;
  EXPAT_VERSION : string;
  CPU_COUNT : Z;
  HAVE_THREADING : bool;
  HAVE_IPV6 : bool;
  RLIMIT_FDS_SOFT : Z;
  RLIMIT_FDS_HARD : Z;
  START_TIME_INFO : gmap string value
}.

(** The inner [try] of the ssl block: only [AttributeError] is handled
    there. *)
Definition openssl_inner (ie : ImportEnv) : result string :=
  match ie_ssl_OPENSSL_VERSION ie with
  | Ok v => Ok v
  | Raise AttributeError => Ok "OpenSSL >0.8.0"
  | Raise e => Raise e
  end.

(** The module body, top to bottom. *)
Definition import_module (ie : ImportEnv) : result Globals :=
  let py_gt_2 := 2 <? ie_version_major ie in
  let instance_id :=
    lower (slice_2_m1 (hex py_gt_2 (ie_getrandbits_128 ie))) in
  let is_64bit := 4 <? ie_calcsize_P ie in
  let have_ucs4 := 65536 <? default 0 (ie_maxunicode ie) in
  result_bind (try_except_Exception
                 (result_bind (ie_import_readline ie) (fun _ => Ok true)) false)
    (fun have_readline =>
  result_bind (try_except_Exception (ie_sqlite_version ie) EmptyString)
    (fun sqlite_version =>
  result_bind (try_except_Exception
                 (result_bind (ie_import_ssl ie) (fun _ => openssl_inner ie))
                 EmptyString)
    (fun openssl_version =>
  result_bind (try_except_Exception (ie_tkinter_TkVersion ie) EmptyString)
    (fun tkinter_version =>
  result_bind (try_except_Exception (ie_zlib_version ie) EmptyString)
    (fun zlib_version =>
  result_bind (try_except_Exception (ie_expat_version ie) EmptyString)
    (fun expat_version =>
  result_bind (try_except_Exception (ie_cpu_count ie) 0)
    (fun cpu_count =>
  result_bind (try_except_Exception
                 (result_bind (ie_import_threading ie) (fun _ => Ok true)) false)
    (fun have_threading =>
  result_bind (try_except_Exception (ie_has_ipv6 ie) false)
    (fun have_ipv6 =>
  result_bind (try_except_Exception (ie_getrlimit_NOFILE ie) (0, 0))
    (fun rlimit =>
  Ok {| ECO_VERSION := "1.0.0";
        PY_GT_2 := py_gt_2;
        INSTANCE_ID := instance_id;
        IS_64BIT := is_64bit;
        HAVE_UCS4 := have_ucs4;
        HAVE_READLINE := have_readline;
        SQLITE_VERSION := sqlite_version;
        OPENSSL_VERSION := openssl_version;
        TKINTER_VERSION := tkinter_version;
        ZLIB_VERSION := zlib_version;
        EXPAT_VERSION := expat_version;
        CPU_COUNT := cpu_count;
        HAVE_THREADING := have_threading;
        HAVE_IPV6 := have_ipv6;
        RLIMIT_FDS_SOFT := fst rlimit;
        RLIMIT_FDS_HARD := snd rlimit;
        START_TIME_INFO :=
          <["time_utc_offset" := VFloat (Qmake (- ie_timezone ie) 3600)]>
            (<["time_utc" := VStr (ie_utcnow ie)]> ∅) |})))))))))).

(** *** The process and host at the time of a call *)

Record World : Type := {
  w_getuser : result string;            (* getpass.getuser() *)
  w_gethostname : result string;        (* socket.gethostname() *)
  w_getfqdn : result string;            (* socket.getfqdn() *)
  w_uname : result (string * string * string * string * string * string);
  w_linux_distribution : result (string * string * string);
  w_getfilesystemencoding : string;
  w_getcwd : result string;             (* os.getcwd() *)
  w_umask : Z;                          (* the process umask *)
  w_platform : string;                  (* sys.platform *)
  w_argv : list string;                 (* sys.argv *)
  w_executable : string;                (* sys.executable *)
  w_version : string;                   (* sys.version *)
  w_python_compiler : result string;    (* platform.python_compiler() *)
  w_python_build : result (string * string);
  w_version_info : list value           (* list(sys.version_info) *)
}.

Definition set_umask (w : World) (mask : Z) : World :=
  {| w_getuser := w_getuser w;
     w_gethostname := w_gethostname w;
     w_getfqdn := w_getfqdn w;
     w_uname := w_uname w;
     w_linux_distribution := w_linux_distribution w;
     w_getfilesystemencoding := w_getfilesystemencoding w;
     w_getcwd := w_getcwd w;
     w_umask := mask;
     w_platform := w_platform w;
     w_argv := w_argv w;
     w_executable := w_executable w;
     w_version := w_version w;
     w_python_compiler := w_python_compiler w;
     w_python_build := w_python_build w;
     w_version_info := w_version_info w |}.

(** Code that reads and changes the process state and may raise. *)
Definition M (A : Type) : Type := World -> result A * World.

Definition pure {A : Type} (a : A) : M A := fun w => (Ok a, w).

Definition raise {A : Type} (e : exn) : M A := fun w => (Raise e, w).

Definition bind {A B : Type} (m : M A) (k : A -> M B) : M B :=
  fun w =>
    match m w with
    | (Ok a, w') => k a w'
    | (Raise e, w') => (Raise e, w')
    end.

Definition ask {A : Type} (f : World -> result A) : M A := fun w => (f w, w).

Definition try_ {A : Type} (m : M A) (handler : A) : M A :=
  fun w => let '(r, w') := m w in (try_except_Exception r handler, w').

(** [os.umask(mask)]: install [mask], of which the system keeps the nine
    permission bits, and return the mask it replaces. *)
Definition os_umask (mask : Z) : M Z :=
  fun w => (Ok (w_umask w), set_umask w (Z.land mask 511)).

Declare Scope py_scope.
Delimit Scope py_scope with py.
Notation "x <- m ;; k" := (bind m (fun x => k))
  (at level 100, m at next level, right associativity) : py_scope.
Local Open Scope py_scope.

(** Truth value of an object, as [if scrub:] tests it. *)
Definition truthy (v : value) : bool :=
  match v with
  | VNone => false
  | VStr s => negb (String.eqb s EmptyString)
  | VInt z => negb (z =? 0)
  | VBool b => b
  | VFloat q => negb (Qeq_bool q 0)
  | VList l => match l with [] => false | _ :: _ => true end
  | VDict d => match map_to_list d with [] => false | _ :: _ => true end
  end.

(** [ret[k1][k2] = v]: the dictionary stored under [k1] is updated in
    place; [ret] is its only holder. *)
Definition setitem_in (ret : gmap string value) (k1 k2 : string) (v : value)
  : result (gmap string value) :=
  match ret !! k1 with
  | Some (VDict d) => Ok (<[k1 := VDict (<[k2 := v]> d)]> ret)
  | Some _ => Raise (TypeError [k1])
  | None => Raise (KeyError k1)
  end.

(** The dictionary literal stored under [features] by [get_python_info]:
    it reads the module globals only. *)
Definition python_features (g : Globals) : gmap string value :=
  <["threading" := VBool (HAVE_THREADING g)]>
  (<["ipv6" := VBool (HAVE_IPV6 g)]>
  (<["64bit" := VBool (IS_64BIT g)]>
  (<["readline" := VBool (HAVE_READLINE g)]>
  (<["unicode_wide" := VBool (HAVE_UCS4 g)]>
  (<["zlib" := VStr (ZLIB_VERSION g)]>
  (<["tkinter" := VStr (TKINTER_VERSION g)]>
  (<["sqlite" := VStr (SQLITE_VERSION g)]>
  (<["expat" := VStr (EXPAT_VERSION g)]>
  (<["openssl" := VStr (OPENSSL_VERSION g)]> ∅))))))))).

Definition get_python_info (g : Globals) : M (gmap string value) :=
  let ret : gmap string value := ∅ in
  argv <- ask (fun w => _escape_shell_args (w_platform w) (w_argv w) " " None) ;;
  let ret := <["argv" := VStr argv]> ret in
  bin <- ask (fun w => Ok (w_executable w)) ;;
  let ret := <["bin" := VStr bin]> ret in
  version <- ask (fun w => Ok (join " " (split (PY_GT_2 g) (w_version w)))) ;;
  let ret := <["version" := VStr version]> ret in
  compiler <- ask w_python_compiler ;;
  let ret := <["compiler" := VStr compiler]> ret in
  build <- ask w_python_build ;;
  let ret := <["build_date" := VStr (snd build)]> ret in
  version_info <- ask (fun w => Ok (w_version_info w)) ;;
  let ret := <["version_info" := VList version_info]> ret in
  let ret := <["features" := VDict (python_features g)]> ret in
  pure ret.

(** The body of [if scrub:] in [get_profile], which masks identifiable
    information in [ret]. *)
Definition mask_identifiable (ret : gmap string value)
  : result (gmap string value) :=
  let ret := <["cwd" := VStr "-"]> ret in
  let ret := <["hostname" := VStr "-"]> ret in
  let ret := <["hostfqdn" := VStr "-"]> ret in
  result_bind (setitem_in ret "python" "bin" (VStr "-")) (fun ret =>
  result_bind (setitem_in ret "python" "argv" (VStr "-")) (fun ret =>
  result_bind (setitem_in ret "uname" "node" (VStr "-")) (fun ret =>
  let ret := <["username" := VStr "-"]> ret in
  Ok ret))).

Definition get_profile (g : Globals) (kwargs : gmap string value)
  : M (gmap string value) :=
  let scrub := default (VBool false) (kwargs !! "scrub") in
  let kwargs := delete "scrub" kwargs in
  match map_to_list kwargs with
  | _ :: _ => raise (TypeError (map_to_list kwargs).*1)
  | [] =>
  let ret : gmap string value := ∅ in
  username <- try_ (ask w_getuser) EmptyString ;;
  let ret := <["username" := VStr username]> ret in
  let ret := <["guid" := VStr (INSTANCE_ID g)]> ret in
  hostname <- ask w_gethostname ;;
  let ret := <["hostname" := VStr hostname]> ret in
  hostfqdn <- ask w_getfqdn ;;
  let ret := <["hostfqdn" := VStr hostfqdn]> ret in
  uname <- ask w_uname ;;
  let '(u0, u1, u2, u3, u4, u5) := uname in
  let ret :=
    <["uname" := VDict (<["processor" := VStr u5]>
                       (<["machine" := VStr u4]>
                       (<["version" := VStr u3]>
                       (<["release" := VStr u2]>
                       (<["node" := VStr u1]>
                       (<["system" := VStr u0]> ∅))))))]> ret in
  linux_dist <- try_ (ask w_linux_distribution)
                  (EmptyString, EmptyString, EmptyString) ;;
  let '(d0, d1, _) := linux_dist in
  let ret := <["linux_dist_name" := VStr d0]> ret in
  let ret := <["linux_dist_version" := VStr d1]> ret in
  let ret := <["cpu_count" := VInt (CPU_COUNT g)]> ret in
  fs_encoding <- ask (fun w => Ok (w_getfilesystemencoding w)) ;;
  let ret := <["fs_encoding" := VStr fs_encoding]> ret in
  let ret := <["ulimit_soft" := VInt (RLIMIT_FDS_SOFT g)]> ret in
  let ret := <["ulimit_hard" := VInt (RLIMIT_FDS_HARD g)]> ret in
  cwd <- ask w_getcwd ;;
  let ret := <["cwd" := VStr cwd]> ret in
  inner <- os_umask 2 ;;
  outer <- os_umask inner ;;
  let ret := <["umask" := VStr (rjust 3 (chr 48) (oct (PY_GT_2 g) outer))]> ret in
  python <- get_python_info g ;;
  let ret := <["python" := VDict python]> ret in
  let ret := START_TIME_INFO g ∪ ret in
  let ret := <["_eco_version" := VStr (ECO_VERSION g)]> ret in
  if truthy scrub then ask (fun _ => mask_identifiable ret)
  else pure ret
  end.

End Ecoutils.

(** ** Vocabulary of the statements *)

Module Vocabulary.
Import PyStr Quoter Reader Ecoutils.

Definition dq : string := str1 dquote.

Definition bs (k : nat) : string := repeat (str1 backslash) k.

(** The last character of a string. *)
Fixpoint last_char (s : string) : option ascii :=
  match s with
  | EmptyString => None
  | String c EmptyString => Some c
  | String _ s' => last_char s'
  end.

(** The four arguments of the POSIX example. *)
Definition sh_example_args : list string :=
  ["a b"; "it's"; EmptyString; "plain"].

(** The four arguments of the Windows example: [a b]; [c], a double quote,
    [d]; one backslash; and [e], two backslashes, a double quote, [f]. *)
Definition cmd_example_args : list string :=
  ["a b"; "c" +:+ str1 dquote +:+ "d"; str1 backslash;
   "e" +:+ str1 backslash +:+ str1 backslash +:+ str1 dquote +:+ "f"].

(** The style [_escape_shell_args] falls back to. *)
Definition platform_default (platform : string) (args : list string)
    (sep : string) : string :=
  if String.eqb platform "win32" then _args2cmd args sep
  else _args2sh args sep.

(** What [_args2sh] writes for one character inside single quotes: a
    single quote becomes quote, double quote, quote, double quote, quote. *)
Definition sh_escape_char (c : ascii) : string :=
  if Ascii.eqb c squote
  then string_of_list_ascii [squote; dquote; squote; dquote; squote]
  else str1 c.

(** The argument has a character outside the safe set. *)
Definition has_unsafe_char (arg : string) : Prop :=
  exists c, In c (list_ascii_of_string arg) /\ sh_safe_char c = false.

(** What the character loop of [_args2cmd] has written for [body], started
    on an empty result. *)
Definition cmd_content (body : string) : string :=
  join EmptyString (fst (string_fold args2cmd_char body ([], []))).

(** *** The profile schema *)

Definition profile_keys : list string :=
  ["username"; "guid"; "hostname"; "hostfqdn"; "uname"; "linux_dist_name";
   "linux_dist_version"; "cpu_count"; "fs_encoding"; "ulimit_soft";
   "ulimit_hard"; "cwd"; "umask"; "python"; "time_utc"; "time_utc_offset";
   "_eco_version"].

Definition uname_keys : list string :=
  ["system"; "node"; "release"; "version"; "machine"; "processor"].

Definition python_keys : list string :=
  ["argv"; "bin"; "version"; "compiler"; "build_date"; "version_info";
   "features"].

Definition feature_keys : list string :=
  ["openssl"; "expat"; "sqlite"; "tkinter"; "zlib"; "unicode_wide";
   "readline"; "64bit"; "ipv6"; "threading"].

(** The dictionary has exactly the fixed keys, at the top and in its
    [uname], [python] and [python.features] dictionaries. *)
Definition has_schema (p : gmap string value) : Prop :=
  dom p = list_to_set profile_keys
  /\ (exists u : gmap string value,
        p !! "uname" = Some (VDict u) /\ dom u = list_to_set uname_keys)
  /\ (exists py f : gmap string value,
        p !! "python" = Some (VDict py)
        /\ dom py = list_to_set python_keys
        /\ py !! "features" = Some (VDict f)
        /\ dom f = list_to_set feature_keys).

(** The value found by following the keys of [path] from [v]. *)
Fixpoint lookup_path (path : list string) (v : value) : option value :=
  match path with
  | [] => Some v
  | k :: path' =>
      match v with
      | VDict d =>
          match d !! k with
          | Some v' => lookup_path path' v'
          | None => None
          end
      | _ => None
      end
  end.

(** The seven fields the scrub mode masks. *)
Definition scrubbed_paths : list (list string) :=
  [["cwd"]; ["hostname"]; ["hostfqdn"]; ["python"; "bin"];
   ["python"; "argv"]; ["uname"; "node"]; ["username"]].

(** An outcome [except Exception] can deal with. *)
Definition catchable {A : Type} (r : result A) : bool :=
  match r with
  | Ok _ => true
  | Raise e => is_Exception e
  end.

Definition is_Ok {A : Type} (r : result A) : bool :=
  match r with
  | Ok _ => true
  | Raise _ => false
  end.

(** *** A sample process *)

Definition sample_import : ImportEnv :=
  {| ie_version_major := 2;
     ie_getrandbits_128 := 48879%N;
     ie_calcsize_P := 8;
     ie_maxunicode := Some 1114111;
     ie_import_readline := Ok tt;
     ie_sqlite_version := Ok "3.8.2";
     ie_import_ssl := Ok tt;
     ie_ssl_OPENSSL_VERSION := Raise AttributeError;
     ie_tkinter_TkVersion := Raise ImportError;
     ie_zlib_version := Ok "1.2.8";
     ie_expat_version := Ok "expat_2.1.0";
     ie_cpu_count := Ok 4;
     ie_import_threading := Ok tt;
     ie_has_ipv6 := Ok true;
     ie_getrlimit_NOFILE := Ok (1024, 4096);
     ie_utcnow := "2016-05-24 07:59:40.473140";
     ie_timezone := 28800 |}.

Definition sample_globals : Globals :=
  {| ECO_VERSION := "1.0.0";
     PY_GT_2 := false;
     INSTANCE_ID := "beef";
     IS_64BIT := true;
     HAVE_UCS4 := true;
     HAVE_READLINE := true;
     SQLITE_VERSION := "3.8.2";
     OPENSSL_VERSION := "OpenSSL >0.8.0";
     TKINTER_VERSION := EmptyString;
     ZLIB_VERSION := "1.2.8";
     EXPAT_VERSION := "expat_2.1.0";
     CPU_COUNT := 4;
     HAVE_THREADING := true;
     HAVE_IPV6 := true;
     RLIMIT_FDS_SOFT := 1024;
     RLIMIT_FDS_HARD := 4096;
     START_TIME_INFO :=
       <["time_utc_offset" := VFloat (Qmake (-28800) 3600)]>
         (<["time_utc" := VStr "2016-05-24 07:59:40.473140"]> ∅) |}.

(** A Linux host whose umask is 022 and whose interpreter has no
    [platform.linux_distribution]. *)
Definition sample_world : World :=
  {| w_getuser := Ok "mahmoud";
     w_gethostname := Ok "host";
     w_getfqdn := Ok "host.example";
     w_uname := Ok ("Linux", "host", "3.13.0", "#129", "x86_64", "x86_64");
     w_linux_distribution := Raise AttributeError;
     w_getfilesystemencoding := "UTF-8";
     w_getcwd := Ok "/home/mahmoud";
     w_umask := 18;
     w_platform := "linux2";
     w_argv := ["ecoutils.py"; "a b"];
     w_executable := "/usr/bin/python";
     w_version := "2.7.6 (default,  Jun 22 2015) [GCC 4.8.2]";
     w_python_compiler := Ok "GCC 4.8.2";
     w_python_build := Ok ("default", "Jun 22 2015");
     w_version_info := [VInt 2; VInt 7; VInt 6; VStr "final"; VInt 0] |}.

(** The same host after the working directory was removed: [os.getcwd]
    raises. *)
Definition world_without_cwd : World :=
  {| w_getuser := w_getuser sample_world;
     w_gethostname := w_gethostname sample_world;
     w_getfqdn := w_getfqdn sample_world;
     w_uname := w_uname sample_world;
     w_linux_distribution := w_linux_distribution sample_world;
     w_getfilesystemencoding := w_getfilesystemencoding sample_world;
     w_getcwd := Raise OSError;
     w_umask := w_umask sample_world;
     w_platform := w_platform sample_world;
     w_argv := w_argv sample_world;
     w_executable := w_executable sample_world;
     w_version := w_version sample_world;
     w_python_compiler := w_python_compiler sample_world;
     w_python_build := w_python_build sample_world;
     w_version_info := w_version_info sample_world |}.

(** The truth value of the [scrub] keyword, [False] when it is not
    given. *)
Definition scrub_of (kwargs : gmap string value) : bool :=
  truthy (default (VBool false) (kwargs !! "scrub")).

(** What the scrub block makes of [ret], whose [python] and [uname]
    dictionaries are [py] and [un]. *)
Definition masked (ret py un : gmap string value) : gmap string value :=
  <["username" := VStr "-"]>
    (<["uname" := VDict (<["node" := VStr "-"]> un)]>
    (<["python" := VDict (<["argv" := VStr "-"]> (<["bin" := VStr "-"]> py))]>
    (<["python" := VDict (<["bin" := VStr "-"]> py)]>
    (<["hostfqdn" := VStr "-"]>
    (<["hostname" := VStr "-"]>
    (<["cwd" := VStr "-"]> ret)))))).

Fixpoint is_prefix (p q : list string) : bool :=
  match p, q with
  | [], _ => true
  | _ :: _, [] => false
  | x :: p', y :: q' => String.eqb x y && is_prefix p' q'
  end.

(** The path leads neither to a masked field, nor into one, nor to a
    dictionary that holds one. *)
Definition apart_from_scrubbed (path : list string) : bool :=
  forallb (fun sp => negb (is_prefix sp path) && negb (is_prefix path sp))
    scrubbed_paths.

(** No keyword other than [scrub] is passed. *)
Definition only_scrub (kwargs : gmap string value) : Prop :=
  delete "scrub" kwargs = ∅.

(** The lookup raises [e]. *)
Definition raises {A : Type} (r : result A) (e : exn) : Prop :=
  r = Raise e.

(** The exceptions of the lookups [get_profile] makes outside of a [try]
    block, and those a [try] block of [get_profile] lets through. *)
Definition propagated (w : World) (e : exn) : Prop :=
  (raises (w_getuser w) e /\ is_Exception e = false)
  \/ raises (w_gethostname w) e
  \/ raises (w_getfqdn w) e
  \/ raises (w_uname w) e
  \/ (raises (w_linux_distribution w) e /\ is_Exception e = false)
  \/ raises (w_getcwd w) e
  \/ raises (w_python_compiler w) e
  \/ raises (w_python_build w) e.

(** Every lookup outside of a [try] block succeeds, and the two inside one
    raise nothing that [except Exception] lets through. *)
Definition lookups_succeed (w : World) : bool :=
  catchable (w_getuser w) && is_Ok (w_gethostname w) && is_Ok (w_getfqdn w)
  && is_Ok (w_uname w) && catchable (w_linux_distribution w)
  && is_Ok (w_getcwd w) && is_Ok (w_python_compiler w)
  && is_Ok (w_python_build w).

(** No probe of the module body raises past [except Exception]. *)
Definition probes_catchable (ie : ImportEnv) : bool :=
  catchable (ie_import_readline ie) && catchable (ie_sqlite_version ie)
  && catchable (ie_import_ssl ie) && catchable (ie_ssl_OPENSSL_VERSION ie)
  && catchable (ie_tkinter_TkVersion ie) && catchable (ie_zlib_version ie)
  && catchable (ie_expat_version ie) && catchable (ie_cpu_count ie)
  && catchable (ie_import_threading ie) && catchable (ie_has_ipv6 ie)
  && catchable (ie_getrlimit_NOFILE ie).

End Vocabulary.

(** ** The JSON fallback ([_fake_json_dumps]) *)

Module FakeJson.
Import PyStr.

(** [s.startswith(p)] *)
Fixpoint startswith (p s : string) : bool :=
  match p, s with
  | EmptyString, _ => true
  | String _ _, EmptyString => false
  | String a p', String b s' => Ascii.eqb a b && startswith p' s'
  end.

(** [s[1:]] *)
Definition slice_1 (s : string) : string :=
  match s with
  | EmptyString => EmptyString
  | String _ s' => s'
  end.

(** [s[1:-1]] *)
Definition slice_1_m1 (s : string) : string :=
  String.substring 1 (String.length s - 1 - 1) s.

(** [s.replace(old, new)] for a non-empty [old]: the occurrences are taken
    left to right and do not overlap; [skip] counts the characters of a
    match still to pass over. *)
Fixpoint replace_from (old new : string) (skip : nat) (s : string) : string :=
  match s with
  | EmptyString => EmptyString
  | String c s' =>
      match skip with
      | S k => replace_from old new k s'
      | O =>
          if startswith old s
          then new +:+ replace_from old new (String.length old - 1) s'
          else String c (replace_from old new 0 s')
      end
  end.

Definition replace (old new s : string) : string := replace_from old new 0 s.

(** The body of [_fake_safe_repr] after the call of [_real_safe_repr], whose
    result is [(res, is_read, is_rec)]. *)
Definition _fake_safe_repr (real : string * bool * bool) : string * bool * bool :=
  let '(res, is_read, is_rec) := real in
  let res := if String.eqb res "None" then "null" else res in
  let res := if String.eqb res "True" then "true" else res in
  let res := if String.eqb res "False" then "false" else res in
  let res :=
    if negb (startswith "'" res || startswith "u'" res) then res
    else
      let res := if startswith "u" res then slice_1 res else res in
      let contents := slice_1_m1 res in
      let contents :=
        replace (String backslash (str1 dquote)) EmptyString
          (replace (str1 dquote) EmptyString contents) in
      str1 dquote +:+ contents +:+ str1 dquote in
  (res, is_read, is_rec).

End FakeJson.

(** ** Vocabulary of the further statements *)

Module Vocabulary2.
Import PyStr Quoter Reader Ecoutils Vocabulary FakeJson.

(** What [_args2cmd] writes for the rest [s] of an argument when [n]
    backslashes are buffered; [q] tells whether the argument is
    quote-wrapped. *)
Fixpoint cmd_enc (q : bool) (n : nat) (s : string) : string :=
  match s with
  | EmptyString => bs n +:+ (if q then bs n +:+ dq else EmptyString)
  | String c s' =>
      if Ascii.eqb c backslash then cmd_enc q (S n) s'
      else if Ascii.eqb c dquote
      then bs (2 * n) +:+ String backslash (str1 dquote) +:+ cmd_enc q 0 s'
      else bs n +:+ String c (cmd_enc q 0 s')
  end.

(** The end of [args2cmd_step]: the buffer is flushed, twice and with a
    closing quote when the argument is quote-wrapped. *)
Definition cmd_finish (q : bool) (st : list string * list string) : list string :=
  let '(r, b) := st in
  let r := match b with [] => r | _ :: _ => r ++ b end in
  if q then (r ++ b) ++ [str1 dquote] else r.

(** The reader's current word after the text [t] was added to it. *)
Definition push_str (cur : option string) (t : string) : option string :=
  match t with
  | EmptyString => cur
  | String _ _ => Some (default EmptyString cur +:+ t)
  end.

(** The line ends, or goes on with a space. *)
Definition terminated (rest : string) : Prop :=
  rest = EmptyString \/ exists rest', rest = String space rest'.

(** Every character of the string is in the safe set of [_args2sh]. *)
Fixpoint all_safe (s : string) : bool :=
  match s with
  | EmptyString => true
  | String c s' => sh_safe_char c && all_safe s'
  end.

(** A string without its last character. *)
Definition but_last (s : string) : string :=
  String.substring 0 (String.length s - 1) s.

(** The hexadecimal digits of a number, as [hex] writes them. *)
Definition hex_digits (n : N) : string :=
  HexadecimalString.NilZero.string_of_uint (N.to_hex_uint n).

(** The value a probe leaves in its global: its result, or [fallback] when it
    raised. *)
Definition probe_value {A : Type} (r : result A) (fallback : A) : A :=
  match r with
  | Ok a => a
  | Raise _ => fallback
  end.

(** The string has no double quote. *)
Fixpoint no_dquote (s : string) : bool :=
  match s with
  | EmptyString => true
  | String c s' => negb (Ascii.eqb c dquote) && no_dquote s'
  end.

(** The value of a lookup that succeeded. *)
Definition result_value {A : Type} (r : result A) : option A :=
  match r with
  | Ok a => Some a
  | Raise _ => None
  end.

(** The fields that [get_profile] copies from the module globals. *)
Definition process_constant_keys : list string :=
  ["cpu_count"; "ulimit_soft"; "ulimit_hard"; "time_utc";
   "time_utc_offset"; "_eco_version"].

(** A keyword [get_profile] does not know. *)
Definition unknown_keyword : gmap string value := {["verbose" := VBool true]}.

(** The white space normalisation of [sys.version] in [get_python_info]. *)
Definition normalize (py3 : bool) (s : string) : string :=
  join " " (split py3 s).

(** A word: not empty, and free of white space. *)
Fixpoint no_space (py3 : bool) (s : string) : bool :=
  match s with
  | EmptyString => true
  | String c s' => negb (isspace py3 c) && no_space py3 s'
  end.

Definition is_word (py3 : bool) (s : string) : Prop :=
  s <> EmptyString /\ no_space py3 s = true.

End Vocabulary2.

(** * Properties of the shell escaping *)

Section QuoterExamples.
Import PyStr Quoter Reader Vocabulary.

(** C4. For the arguments [a b], [it's], the empty string and [plain],
    [_args2sh] gives the tokens ['a b'], then [it's] wrapped in single
    quotes with its quote written as quote, double quote, quote, double
    quote, quote, then [''] and [plain]; it joins them with single spaces,
    and the POSIX tokenizer reads the four arguments back from the joined
    line, in order. *)
Theorem args2sh_posix_example :
  let tokens :=
    ["'a b'"; "'it'" +:+ dq +:+ "'" +:+ dq +:+ "'s'"; "''"; "plain"] in
  map (fun arg => _args2sh [arg] " ") sh_example_args = tokens
  /\ _args2sh sh_example_args " " = join " " tokens
  /\ sh_tokenize (_args2sh sh_example_args " ") = Some sh_example_args.
Proof. repeat split; vm_compute; reflexivity. Qed.

(** C5. For the four arguments of [cmd_example_args], the line
    [_args2cmd] writes is read back by the backslash and quote convention
    as the same four arguments, in order. *)
Theorem args2cmd_roundtrip_example :
  cmd_parse (_args2cmd cmd_example_args " ") = cmd_example_args.
Proof. vm_compute. reflexivity. Qed.

End QuoterExamples.

Section QuoterStyle.
Import PyStr Quoter Vocabulary.

Lemma escape_shell_args_named (platform : string) (args : list string)
    (sep s : string) :
  s <> EmptyString ->
  _escape_shell_args platform args sep (Some s) =
    if String.eqb s "sh" then Ok (_args2sh args sep)
    else if String.eqb s "cmd" then Ok (_args2cmd args sep)
    else Raise (ValueError s).
Proof.
  intros Hs. unfold _escape_shell_args.
  destruct (String.eqb_spec s EmptyString) as [->|_]; [congruence|reflexivity].
Qed.

Lemma escape_shell_args_default (platform : string) (args : list string)
    (sep : string) :
  _escape_shell_args platform args sep None =
    Ok (platform_default platform args sep).
Proof.
  unfold _escape_shell_args, platform_default.
  destruct (String.eqb platform "win32"); reflexivity.
Qed.

(** C10. The empty string passed as [style] behaves as [None]: the
    platform default is chosen ([cmd] on win32, [sh] elsewhere) and nothing
    is raised; [_escape_shell_args] raises exactly when [style] is a
    non-empty string other than [sh] and [cmd], and then it raises
    [ValueError]. *)
Theorem escape_shell_args_falsy_style :
  forall (platform : string) (args : list string) (sep : string),
    _escape_shell_args platform args sep (Some EmptyString) =
      Ok (platform_default platform args sep)
    /\ _escape_shell_args platform args sep None =
         Ok (platform_default platform args sep)
    /\ forall (style : option string) (e : exn),
         _escape_shell_args platform args sep style = Raise e <->
         exists s, style = Some s /\ s <> EmptyString /\ s <> "sh"
                   /\ s <> "cmd" /\ e = ValueError s.
Proof.
  intros platform args sep. split; [|split].
  - apply (escape_shell_args_default platform args sep).
  - apply escape_shell_args_default.
  - intros style e. destruct style as [s|].
    + destruct (String.eqb_spec s EmptyString) as [->|Hne].
      * change (_escape_shell_args platform args sep (Some EmptyString))
          with (_escape_shell_args platform args sep None).
        rewrite escape_shell_args_default. split; [discriminate|].
        intros (s & Hs & Hn & _). congruence.
      * rewrite escape_shell_args_named by assumption.
        destruct (String.eqb_spec s "sh") as [->|Hsh].
        { split; [discriminate|]. intros (s & Hs & _ & Hn & _). congruence. }
        destruct (String.eqb_spec s "cmd") as [->|Hcmd].
        { split; [discriminate|].
          intros (s & Hs & _ & _ & Hn & _). congruence. }
        split.
        { intros [= <-]. exists s. repeat split; auto. }
        { intros (s' & [= <-] & _ & _ & _ & ->). reflexivity. }
    + rewrite escape_shell_args_default. split; [discriminate|].
      intros (s & Hs & _). discriminate.
Qed.

End QuoterStyle.

(** ** Facts on strings and joins *)

Section StringFacts.
Import PyStr Vocabulary.

Lemma str_app_cons (c : ascii) (s t : string) :
  String c s +:+ t = String c (s +:+ t).
Proof. reflexivity. Qed.

Lemma str_app_nil_r (s : string) : s +:+ EmptyString = s.
Proof. induction s as [|c s IH]; [reflexivity|]. now rewrite str_app_cons, IH. Qed.

Lemma str_app_assoc (s t u : string) : (s +:+ t) +:+ u = s +:+ (t +:+ u).
Proof.
  induction s as [|c s IH]; [reflexivity|]. now rewrite !str_app_cons, IH.
Qed.

Lemma str_length_app (s t : string) :
  String.length (s +:+ t) = (String.length s + String.length t)%nat.
Proof.
  induction s as [|c s IH]; [reflexivity|].
  rewrite str_app_cons. simpl. now rewrite IH.
Qed.

Lemma last_char_app (s t : string) :
  t <> EmptyString -> last_char (s +:+ t) = last_char t.
Proof.
  intros Ht. induction s as [|c s IH]; [reflexivity|].
  rewrite str_app_cons. simpl. rewrite IH.
  destruct (s +:+ t) eqn:E; [|reflexivity].
  destruct s; [|discriminate]. now destruct t.
Qed.

Lemma last_char_snoc (s : string) (c : ascii) :
  last_char (s +:+ str1 c) = Some c.
Proof. now rewrite last_char_app. Qed.

Lemma join_empty_cons (x : string) (l : list string) :
  join EmptyString (x :: l) = x +:+ join EmptyString l.
Proof. destruct l; simpl; [now rewrite str_app_nil_r|reflexivity]. Qed.

Lemma join_empty_app (l1 l2 : list string) :
  join EmptyString (l1 ++ l2) = join EmptyString l1 +:+ join EmptyString l2.
Proof.
  induction l1 as [|x l1 IH]; [reflexivity|].
  change ((x :: l1) ++ l2) with (x :: (l1 ++ l2)).
  now rewrite !join_empty_cons, IH, str_app_assoc.
Qed.

Lemma join_empty_repeat (s : string) (n : nat) :
  join EmptyString (List.repeat s n) = repeat s n.
Proof.
  induction n as [|n IH]; [reflexivity|].
  change (List.repeat s (S n)) with (s :: List.repeat s n).
  now rewrite join_empty_cons, IH.
Qed.

Lemma repeat_add (s : string) (m n : nat) :
  repeat s (m + n) = repeat s m +:+ repeat s n.
Proof.
  induction m as [|m IH]; [reflexivity|].
  simpl. now rewrite IH, str_app_assoc.
Qed.

Lemma join_cons_cons (sep x y : string) (l : list string) :
  join sep (x :: y :: l) = x +:+ sep +:+ join sep (y :: l).
Proof. reflexivity. Qed.

End StringFacts.

(** ** The POSIX style *)

Section PosixQuoting.
Import PyStr Quoter Vocabulary.

Lemma args2sh_fold (args acc : list string) :
  fold_left args2sh_step args acc =
    acc ++ map (fun a => join " " (args2sh_step [] a)) args.
Proof.
  revert acc. induction args as [|a args IH]; intros acc.
  - simpl. now rewrite app_nil_r.
  - cbn [fold_left map]. rewrite IH.
    assert (Hstep : args2sh_step acc a = acc ++ [join " " (args2sh_step [] a)]).
    { unfold args2sh_step.
      destruct (String.eqb a EmptyString); [reflexivity|].
      destruct (_find_sh_unsafe a); reflexivity. }
    rewrite Hstep, <- app_assoc. reflexivity.
Qed.

(** The line is the tokens of the arguments, one by one, joined by single
    spaces. *)
Lemma args2sh_tokens (args : list string) (sep : string) :
  _args2sh args sep = join " " (map (fun a => _args2sh [a] sep) args).
Proof.
  unfold _args2sh. rewrite args2sh_fold. reflexivity.
Qed.

Lemma find_sh_unsafe_from_None (arg : string) (i : nat) :
  find_sh_unsafe_from i arg = None ->
  forall c, In c (list_ascii_of_string arg) -> sh_safe_char c = true.
Proof.
  revert i. induction arg as [|d arg IH]; intros i H c Hin; [contradiction|].
  simpl in H, Hin. destruct (sh_safe_char d) eqn:Hd; [|discriminate].
  destruct Hin as [<-|Hin]; [assumption|]. now apply (IH (S i)).
Qed.

Lemma replace1_squote (arg : string) :
  replace1 squote sh_squote_escape arg =
    join EmptyString (map sh_escape_char (list_ascii_of_string arg)).
Proof.
  induction arg as [|c arg IH]; [reflexivity|].
  cbn [list_ascii_of_string map replace1]. rewrite join_empty_cons, IH.
  unfold sh_escape_char. destruct (Ascii.eqb c squote); reflexivity.
Qed.

(** C7 (amended). An argument with a character outside the safe set is
    written between single quotes, and each single quote inside it is
    replaced by the five characters quote, double quote, quote, double
    quote, quote. *)
Theorem args2sh_unsafe_quoted :
  forall (arg sep : string),
    has_unsafe_char arg ->
    _args2sh [arg] sep =
      str1 squote
      +:+ join EmptyString (map sh_escape_char (list_ascii_of_string arg))
      +:+ str1 squote.
Proof.
  intros arg sep (c & Hin & Hc).
  unfold _args2sh. cbn [fold_left]. unfold args2sh_step.
  destruct (String.eqb_spec arg EmptyString) as [->|_]; [contradiction|].
  destruct (_find_sh_unsafe arg) eqn:Hfind.
  - cbn [app join]. now rewrite replace1_squote.
  - pose proof (find_sh_unsafe_from_None arg 0 Hfind c Hin). congruence.
Qed.

Lemma args2sh_unsafe_quoted_witness :
  has_unsafe_char "it's"
  /\ _args2sh ["it's"] " " = "'it'" +:+ dq +:+ "'" +:+ dq +:+ "'s'".
Proof.
  assert (H : has_unsafe_char "it's").
  { exists squote. split; [simpl; tauto | reflexivity]. }
  split; [exact H|].
  rewrite (args2sh_unsafe_quoted "it's" " " H). reflexivity.
Defined.

(** C7 as first stated fails: for the argument made of one single quote the
    text between the wrapping quotes has five characters, so no sequence of
    four characters stands for the embedded quote. *)
Lemma args2sh_escape_not_four_chars :
  ~ exists q : string,
      String.length q = 4%nat
      /\ _args2sh [str1 squote] " " = str1 squote +:+ q +:+ str1 squote.
Proof.
  intros (q & Hlen & H).
  apply (f_equal String.length) in H.
  rewrite !str_length_app, Hlen in H. vm_compute in H. discriminate.
Qed.

End PosixQuoting.

(** ** The Windows style *)

Section WindowsQuoting.
Import PyStr Quoter Vocabulary.

Lemma string_fold_app {A : Type} (f : A -> ascii -> A) (s t : string) (a : A) :
  string_fold f (s +:+ t) a = string_fold f t (string_fold f s a).
Proof.
  revert a. induction s as [|c s IH]; intros a; [reflexivity|].
  rewrite str_app_cons. simpl. apply IH.
Qed.

(** The loop only ever appends to what [result] already holds. *)
Lemma args2cmd_char_frame (r0 r b : list string) (c : ascii) :
  args2cmd_char (r0 ++ r, b) c =
    (r0 ++ fst (args2cmd_char (r, b) c), snd (args2cmd_char (r, b) c)).
Proof.
  unfold args2cmd_char.
  destruct (Ascii.eqb c backslash); [reflexivity|].
  destruct (Ascii.eqb c dquote).
  - cbn [fst snd]. now rewrite <- !app_assoc.
  - destruct b; cbn [fst snd]; now rewrite <- !app_assoc.
Qed.

Lemma args2cmd_scan_frame (s : string) (r0 r b : list string) :
  string_fold args2cmd_char s (r0 ++ r, b) =
    (r0 ++ fst (string_fold args2cmd_char s (r, b)),
     snd (string_fold args2cmd_char s (r, b))).
Proof.
  revert r b. induction s as [|c s IH]; intros r b; [reflexivity|].
  cbn [string_fold]. rewrite args2cmd_char_frame.
  destruct (args2cmd_char (r, b) c) as [r' b']. apply IH.
Qed.

(** A run of backslashes is only buffered. *)
Lemma args2cmd_scan_backslashes (k : nat) (r b : list string) :
  string_fold args2cmd_char (bs k) (r, b) =
    (r, b ++ List.repeat (str1 backslash) k).
Proof.
  revert b. induction k as [|k IH]; intros b.
  - simpl. now rewrite app_nil_r.
  - change (bs (S k)) with (String backslash (bs k)).
    cbn [string_fold]. unfold args2cmd_char at 2.
    rewrite Ascii.eqb_refl, IH, <- app_assoc. reflexivity.
Qed.

(** After a text that does not end in a backslash the buffer is empty. *)
Lemma args2cmd_scan_buffer (body : string) (r b : list string) :
  last_char body <> Some backslash ->
  snd (string_fold args2cmd_char body (r, b)) =
    match body with EmptyString => b | _ => [] end.
Proof.
  revert r b. induction body as [|c body IH]; intros r b Hlast; [reflexivity|].
  cbn [string_fold].
  destruct (args2cmd_char (r, b) c) as [r' b'] eqn:Hstep.
  destruct body as [|d body].
  - cbn [string_fold snd]. cbn in Hlast.
    unfold args2cmd_char in Hstep.
    destruct (Ascii.eqb_spec c backslash) as [->|_]; [congruence|].
    destruct (Ascii.eqb c dquote); [congruence|]. destruct b; congruence.
  - rewrite IH; [reflexivity|]. exact Hlast.
Qed.

(** What the loop writes never ends in a backslash. *)
Lemma args2cmd_char_last (r b : list string) (c : ascii) :
  last_char (join EmptyString r) <> Some backslash ->
  last_char (join EmptyString (fst (args2cmd_char (r, b) c))) <> Some backslash.
Proof.
  intros Hr. unfold args2cmd_char.
  destruct (Ascii.eqb_spec c backslash) as [->|Hc]; [exact Hr|].
  destruct (Ascii.eqb c dquote).
  - cbn [fst]. rewrite !join_empty_app.
    change (join EmptyString [String backslash (str1 dquote)])
      with (str1 backslash +:+ str1 dquote).
    rewrite <- !str_app_assoc, last_char_snoc. discriminate.
  - assert (Hsnoc : forall l : list string,
              last_char (join EmptyString (l ++ [str1 c])) <> Some backslash).
    { intros l. rewrite join_empty_app.
      change (join EmptyString [str1 c]) with (str1 c).
      rewrite last_char_snoc. congruence. }
    destruct b; cbn [fst]; apply Hsnoc.
Qed.

Lemma args2cmd_scan_last (s : string) (r b : list string) :
  last_char (join EmptyString r) <> Some backslash ->
  last_char (join EmptyString (fst (string_fold args2cmd_char s (r, b))))
    <> Some backslash.
Proof.
  revert r b. induction s as [|c s IH]; intros r b Hr; [exact Hr|].
  cbn [string_fold].
  pose proof (args2cmd_char_last r b c Hr) as Hstep.
  destruct (args2cmd_char (r, b) c) as [r' b']. now apply IH.
Qed.

Lemma cmd_content_last (body : string) :
  last_char (cmd_content body) <> Some backslash.
Proof. apply args2cmd_scan_last. discriminate. Qed.

(** The pieces one argument adds to a [result] that starts with [r0]. *)
Lemma args2cmd_arg_pieces (body : string) (k : nat) (r0 : list string) :
  last_char body <> Some backslash ->
  let arg := body +:+ bs k in
  join EmptyString
    ((let r := if needquote arg then r0 ++ [str1 dquote] else r0 in
      let '(r, b) := string_fold args2cmd_char arg (r, []) in
      let r := match b with [] => r | _ :: _ => r ++ b end in
      if needquote arg then (r ++ b) ++ [str1 dquote] else r)) =
    join EmptyString r0 +:+
    (if needquote arg then dq +:+ cmd_content body +:+ bs (2 * k) +:+ dq
     else cmd_content body +:+ bs k).
Proof.
  intros Hlast arg.
  assert (Hscan : forall r,
    string_fold args2cmd_char arg (r, []) =
      (r ++ fst (string_fold args2cmd_char body ([], [])),
       List.repeat (str1 backslash) k)).
  { intros r. unfold arg. rewrite string_fold_app.
    rewrite <- (app_nil_r r) at 1. rewrite args2cmd_scan_frame.
    rewrite (args2cmd_scan_buffer body [] [] Hlast).
    replace (match body with EmptyString => [] | String _ _ => [] end)
      with (@nil string) by (destruct body; reflexivity).
    rewrite args2cmd_scan_backslashes. reflexivity. }
  assert (Hflush : forall r : list string,
    join EmptyString
      (match List.repeat (str1 backslash) k with
       | [] => r
       | _ :: _ => r ++ List.repeat (str1 backslash) k
       end) = join EmptyString r +:+ bs k).
  { intros r. destruct k as [|k].
    - simpl. now rewrite str_app_nil_r.
    - cbn [List.repeat]. rewrite join_empty_app.
      f_equal. apply (join_empty_repeat (str1 backslash) (S k)). }
  cbv zeta. destruct (needquote arg).
  - rewrite Hscan. rewrite !join_empty_app. rewrite Hflush.
    rewrite !join_empty_app, join_empty_repeat.
    change (join EmptyString [str1 dquote]) with dq.
    fold (cmd_content body). fold (bs k).
    replace (2 * k)%nat with (k + k)%nat by lia. unfold bs at 3.
    rewrite repeat_add. fold (bs k). now rewrite !str_app_assoc.
  - rewrite Hscan. rewrite Hflush. rewrite join_empty_app.
    fold (cmd_content body). now rewrite str_app_assoc.
Qed.

(** C6. Let an argument be [body] followed by [k] backslashes, [body] not
    ending in a backslash.  When the argument is quote-wrapped (it is empty
    or has a space or a tab), its token is an opening quote, what the loop
    writes for [body], [2 * k] backslashes and the closing quote; otherwise
    it is what the loop writes for [body] and [k] backslashes.  What the
    loop writes for [body] does not end in a backslash, so the run before
    the closing quote is exactly that long. *)
Theorem args2cmd_trailing_backslashes :
  forall (body sep : string) (k : nat),
    last_char body <> Some backslash ->
    let arg := body +:+ bs k in
    last_char (cmd_content body) <> Some backslash
    /\ _args2cmd [arg] sep =
         if needquote arg
         then dq +:+ cmd_content body +:+ bs (2 * k) +:+ dq
         else cmd_content body +:+ bs k.
Proof.
  intros body sep k Hlast arg. split; [apply cmd_content_last|].
  pose proof (args2cmd_arg_pieces body k [] Hlast) as H.
  cbv zeta in H. fold arg in H. exact H.
Qed.

Lemma args2cmd_trailing_backslashes_witness :
  last_char "a b" <> Some backslash
  /\ _args2cmd ["a b" +:+ bs 2] " " = dq +:+ "a b" +:+ bs 4 +:+ dq
  /\ last_char "ab" <> Some backslash
  /\ _args2cmd ["ab" +:+ bs 2] " " = "ab" +:+ bs 2.
Proof.
  assert (H1 : last_char "a b" <> Some backslash) by (vm_compute; discriminate).
  assert (H2 : last_char "ab" <> Some backslash) by (vm_compute; discriminate).
  split; [exact H1|]. split; [|split; [exact H2|]].
  - exact (proj2 (args2cmd_trailing_backslashes "a b" " " 2 H1)).
  - exact (proj2 (args2cmd_trailing_backslashes "ab" " " 2 H2)).
Defined.

(** The separator apart, an argument adds the same pieces wherever it
    stands in the list. *)
Lemma args2cmd_step_shape (result : list string) (arg : string) :
  args2cmd_step result arg =
    match result with [] => result | _ :: _ => result ++ [" "] end
    ++ args2cmd_step [] arg.
Proof.
  unfold args2cmd_step.
  set (r1 := match result with [] => result | _ :: _ => result ++ [" "] end).
  cbn [app].
  set (r2 := if needquote arg then [str1 dquote] else []).
  replace (if needquote arg then r1 ++ [str1 dquote] else r1) with (r1 ++ r2)
    by (unfold r2; destruct (needquote arg); [reflexivity|apply app_nil_r]).
  replace (if needquote arg then [str1 dquote] else []) with r2 by reflexivity.
  replace (if needquote arg then [] ++ [str1 dquote] else []) with r2
    by (unfold r2; destruct (needquote arg); reflexivity).
  rewrite args2cmd_scan_frame.
  destruct (string_fold args2cmd_char arg (r2, [])) as [r b].
  cbn [fst snd].
  destruct (needquote arg), b; now rewrite <- ?app_assoc.
Qed.

Lemma args2cmd_char_progress (r b : list string) (c : ascii) :
  fst (args2cmd_char (r, b) c) <> [] \/ snd (args2cmd_char (r, b) c) <> [].
Proof.
  unfold args2cmd_char.
  destruct (Ascii.eqb c backslash); [right; destruct b; discriminate|].
  destruct (Ascii.eqb c dquote); [left; destruct r; discriminate|].
  left. destruct b; cbn [fst]; [destruct r|destruct (r ++ s :: b)]; discriminate.
Qed.

Lemma args2cmd_scan_progress (s : string) (r b : list string) :
  r <> [] \/ b <> [] ->
  fst (string_fold args2cmd_char s (r, b)) <> []
  \/ snd (string_fold args2cmd_char s (r, b)) <> [].
Proof.
  revert r b. induction s as [|c s IH]; intros r b H; [exact H|].
  cbn [string_fold].
  pose proof (args2cmd_char_progress r b c) as Hc.
  destruct (args2cmd_char (r, b) c) as [r' b']. now apply IH.
Qed.

Lemma args2cmd_step_nonempty (arg : string) : args2cmd_step [] arg <> [].
Proof.
  unfold args2cmd_step.
  destruct (needquote arg) eqn:Hq.
  - destruct (string_fold args2cmd_char arg _) as [r b].
    destruct (match b with [] => r | _ :: _ => r ++ b end ++ b); discriminate.
  - destruct arg as [|c arg].
    { unfold needquote in Hq. rewrite !orb_false_iff in Hq.
      destruct Hq as [_ Hq]. discriminate. }
    cbn [string_fold].
    pose proof (args2cmd_char_progress [] [] c) as Hc.
    destruct (args2cmd_char ([], []) c) as [r1 b1].
    pose proof (args2cmd_scan_progress arg r1 b1 Hc) as Hs.
    destruct (string_fold args2cmd_char arg (r1, b1)) as [r b].
    cbn [fst snd] in Hs. destruct b as [|x b].
    + destruct Hs as [Hs|Hs]; [exact Hs|congruence].
    + destruct r; discriminate.
Qed.

Lemma args2cmd_fold (args acc : list string) :
  acc <> [] ->
  join EmptyString (fold_left args2cmd_step args acc) =
    join EmptyString acc +:+
    join EmptyString
      (map (fun a => " " +:+ join EmptyString (args2cmd_step [] a)) args).
Proof.
  revert acc. induction args as [|a args IH]; intros acc Hacc.
  - simpl. now rewrite str_app_nil_r.
  - cbn [fold_left map]. rewrite IH.
    + rewrite args2cmd_step_shape. destruct acc as [|x acc]; [congruence|].
      rewrite !join_empty_app, !join_empty_cons.
      change (join EmptyString [" "]) with " ".
      now rewrite !str_app_assoc.
    + rewrite args2cmd_step_shape. destruct acc as [|x acc]; [congruence|].
      discriminate.
Qed.

Lemma join_space_cons (x : string) (l : list string) :
  join " " (x :: l) =
    x +:+ join EmptyString (map (fun y => " " +:+ y) l).
Proof.
  revert x. induction l as [|y l IH]; intros x.
  - simpl. now rewrite str_app_nil_r.
  - rewrite join_cons_cons, IH. cbn [map].
    now rewrite join_empty_cons, str_app_assoc.
Qed.

(** The line is the tokens of the arguments, one by one, joined by single
    spaces. *)
Lemma args2cmd_tokens (args : list string) (sep : string) :
  _args2cmd args sep = join " " (map (fun a => _args2cmd [a] sep) args).
Proof.
  unfold _args2cmd. destruct args as [|a args]; [reflexivity|].
  cbn [fold_left map]. rewrite join_space_cons, map_map.
  apply args2cmd_fold, args2cmd_step_nonempty.
Qed.

End WindowsQuoting.

(** * Properties of the profile builder *)

Section ProfileSchema.
Import PyStr Quoter Ecoutils Vocabulary.

(** Runs the module body of a successful import. *)
Ltac run_import H :=
  unfold import_module in H;
  repeat match type of H with
    | context [result_bind (try_except_Exception ?r ?h) _] =>
        destruct (try_except_Exception r h);
        cbn [result_bind] in H; [|discriminate H]
    end;
  injection H as <-.

Lemma import_module_start_time (ie : ImportEnv) (g : Globals) :
  import_module ie = Ok g ->
  START_TIME_INFO g =
    <["time_utc_offset" := VFloat (Qmake (- ie_timezone ie) 3600)]>
      (<["time_utc" := VStr (ie_utcnow ie)]> ∅).
Proof. intros H. run_import H. reflexivity. Qed.

Lemma import_module_eco_version (ie : ImportEnv) (g : Globals) :
  import_module ie = Ok g -> ECO_VERSION g = "1.0.0".
Proof. intros H. run_import H. reflexivity. Qed.

Lemma import_sample : import_module sample_import = Ok sample_globals.
Proof. vm_compute. reflexivity. Qed.

(** Unfolds the calls of [get_profile] in the goal. *)
Ltac unfold_profile :=
  cbv beta iota zeta delta
    [get_profile get_python_info bind ask try_ os_umask pure raise scrub_of];
  cbn [set_umask w_getuser w_gethostname w_getfqdn w_uname
       w_linux_distribution w_getfilesystemencoding w_getcwd w_umask
       w_platform w_argv w_executable w_version w_python_compiler
       w_python_build w_version_info].

(** Splits every lookup of the unfolded calls on its outcome, and drops the
    outcomes that contradict a premise of the goal. *)
Ltac split_lookups :=
  repeat match goal with
    | |- context [match map_to_list ?m with _ => _ end] =>
        destruct (map_to_list m) eqn:?
    | |- context [match ?r with Ok _ => _ | Raise _ => _ end] =>
        destruct r eqn:?
    | |- context [let (_, _) := ?x in _] => destruct x
    end;
  try (intros; discriminate).

(** The keys of a dictionary built by insertions. *)
Ltac solve_dom :=
  cbv beta delta [python_features];
  rewrite !dom_insert_L, dom_empty_L;
  cbv delta [profile_keys uname_keys python_keys feature_keys];
  cbn [list_to_set]; set_solver.

(** The entry of a dictionary built by insertions, at a given key. *)
Ltac solve_lookup :=
  repeat (rewrite lookup_insert_ne by discriminate);
  rewrite ?lookup_insert_eq; reflexivity.

(** *** The scrub block *)

Lemma mask_identifiable_dicts (ret py un : gmap string value) :
  ret !! "python" = Some (VDict py) ->
  ret !! "uname" = Some (VDict un) ->
  mask_identifiable ret = Ok (masked ret py un).
Proof.
  intros Hpy Hun. unfold mask_identifiable, setitem_in.
  rewrite !lookup_insert_ne, Hpy by discriminate. cbn [result_bind].
  rewrite lookup_insert_eq. cbn [result_bind].
  rewrite !lookup_insert_ne, Hun by discriminate. reflexivity.
Qed.

Lemma mask_identifiable_Ok (ret ret' : gmap string value) :
  mask_identifiable ret = Ok ret' ->
  exists py un : gmap string value,
    ret !! "python" = Some (VDict py)
    /\ ret !! "uname" = Some (VDict un)
    /\ ret' = masked ret py un.
Proof.
  intros H.
  destruct (ret !! "python") as [[| | | | | |py]|] eqn:Hpy;
    try (unfold mask_identifiable, setitem_in in H;
         rewrite !lookup_insert_ne, Hpy in H by discriminate;
         discriminate H).
  destruct (ret !! "uname") as [[| | | | | |un]|] eqn:Hun;
    try (unfold mask_identifiable, setitem_in in H;
         rewrite !lookup_insert_ne, Hpy in H by discriminate;
         cbn [result_bind] in H; rewrite lookup_insert_eq in H;
         cbn [result_bind] in H;
         rewrite !lookup_insert_ne, Hun in H by discriminate;
         discriminate H).
  exists py, un. repeat split.
  rewrite (mask_identifiable_dicts ret py un Hpy Hun) in H. congruence.
Qed.

Lemma masked_lookup_other (ret py un : gmap string value) (k : string) :
  k <> "cwd" -> k <> "hostname" -> k <> "hostfqdn" -> k <> "username" ->
  k <> "python" -> k <> "uname" ->
  masked ret py un !! k = ret !! k.
Proof.
  intros. unfold masked. now rewrite !lookup_insert_ne by congruence.
Qed.

Lemma masked_lookup_python (ret py un : gmap string value) :
  masked ret py un !! "python" =
    Some (VDict (<["argv" := VStr "-"]> (<["bin" := VStr "-"]> py))).
Proof. unfold masked. solve_lookup. Qed.

Lemma masked_lookup_uname (ret py un : gmap string value) :
  masked ret py un !! "uname" = Some (VDict (<["node" := VStr "-"]> un)).
Proof. unfold masked. solve_lookup. Qed.

(** The seven fields hold the placeholder. *)
Lemma masked_placeholders (ret py un : gmap string value) (path : list string) :
  In path scrubbed_paths ->
  lookup_path path (VDict (masked ret py un)) = Some (VStr "-").
Proof.
  intros Hin. unfold scrubbed_paths in Hin. cbn [In] in Hin.
  repeat (destruct Hin as [<-|Hin]); [..|contradiction];
    cbn [lookup_path];
    rewrite ?masked_lookup_python, ?masked_lookup_uname;
    try (unfold masked; solve_lookup); solve_lookup.
Qed.

(** Every field apart from the seven is as it was. *)
Lemma masked_frame (ret py un : gmap string value) (path : list string) :
  ret !! "python" = Some (VDict py) ->
  ret !! "uname" = Some (VDict un) ->
  apart_from_scrubbed path = true ->
  lookup_path path (VDict (masked ret py un)) = lookup_path path (VDict ret).
Proof.
  intros Hpy Hun Hpath. destruct path as [|k path]; [discriminate|].
  cbn [lookup_path].
  destruct (String.eqb_spec k "cwd") as [->|?]; [discriminate|].
  destruct (String.eqb_spec k "hostname") as [->|?]; [discriminate|].
  destruct (String.eqb_spec k "hostfqdn") as [->|?]; [discriminate|].
  destruct (String.eqb_spec k "username") as [->|?]; [discriminate|].
  destruct (String.eqb_spec k "python") as [->|?].
  { rewrite masked_lookup_python, Hpy.
    destruct path as [|k2 path]; [discriminate|]. cbn [lookup_path].
    destruct (String.eqb_spec k2 "bin") as [->|?]; [discriminate|].
    destruct (String.eqb_spec k2 "argv") as [->|?]; [discriminate|].
    now rewrite !lookup_insert_ne by congruence. }
  destruct (String.eqb_spec k "uname") as [->|?].
  { rewrite masked_lookup_uname, Hun.
    destruct path as [|k2 path]; [discriminate|]. cbn [lookup_path].
    destruct (String.eqb_spec k2 "node") as [->|?]; [discriminate|].
    now rewrite !lookup_insert_ne by congruence. }
  now rewrite masked_lookup_other.
Qed.

(** The scrub block keeps the schema. *)
Lemma masked_schema (ret ret' : gmap string value) :
  has_schema ret -> mask_identifiable ret = Ok ret' -> has_schema ret'.
Proof.
  intros (Hdom & (u & Hu & Hdu) & (py & f & Hp & Hdp & Hf & Hdf)) Hm.
  destruct (mask_identifiable_Ok ret ret' Hm) as (py' & un' & Hp' & Hu' & ->).
  assert (py' = py) as -> by congruence.
  assert (un' = u) as -> by congruence.
  split; [|split].
  - unfold masked. rewrite !dom_insert_L, Hdom.
    cbv delta [profile_keys]. cbn [list_to_set]. set_solver.
  - exists (<["node" := VStr "-"]> u). split; [apply masked_lookup_uname|].
    rewrite dom_insert_L, Hdu. cbv delta [uname_keys]. cbn [list_to_set].
    set_solver.
  - exists (<["argv" := VStr "-"]> (<["bin" := VStr "-"]> py)), f.
    split; [apply masked_lookup_python|]. split; [|split].
    + rewrite !dom_insert_L, Hdp. cbv delta [python_keys].
      cbn [list_to_set]. set_solver.
    + now rewrite !lookup_insert_ne by discriminate.
    + exact Hdf.
Qed.

(** *** A call is the unscrubbed call, masked when [scrub] is true *)

Lemma scrub_of_empty : scrub_of ∅ = false.
Proof. reflexivity. Qed.

Lemma scrub_of_bool (b : bool) : scrub_of {["scrub" := VBool b]} = b.
Proof. unfold scrub_of. now rewrite lookup_singleton_eq. Qed.

(** Runs the call [get_profile g ∅ w] of the premise at the head of the
    goal. *)
Ltac run_plain_call :=
  unfold_profile;
  rewrite delete_empty, map_to_list_empty, lookup_empty;
  change (truthy (default (VBool false) None)) with false; cbv iota;
  split_lookups.

Lemma get_profile_unscrubbed (g : Globals) (kwargs : gmap string value)
      (w w' : World) (p : gmap string value) :
  scrub_of kwargs = false ->
  get_profile g kwargs w = (Ok p, w') ->
  get_profile g ∅ w = (Ok p, w').
Proof.
  intros Hs. unfold scrub_of in Hs. unfold_profile.
  rewrite delete_empty, map_to_list_empty, lookup_empty, Hs.
  change (truthy (default (VBool false) None)) with false. cbv iota.
  split_lookups. intros H. exact H.
Qed.

Lemma get_profile_scrubbed (g : Globals) (kwargs : gmap string value)
      (w w' : World) (pt : gmap string value) :
  scrub_of kwargs = true ->
  get_profile g kwargs w = (Ok pt, w') ->
  exists p : gmap string value,
    get_profile g ∅ w = (Ok p, w') /\ mask_identifiable p = Ok pt.
Proof.
  intros Hs. unfold scrub_of in Hs. unfold_profile.
  rewrite delete_empty, map_to_list_empty, lookup_empty, Hs.
  change (truthy (default (VBool false) None)) with false. cbv iota.
  split_lookups. intros [= Hm <-].
  eexists. split; [reflexivity|exact Hm].
Qed.

(** *** The unscrubbed profile *)

Lemma plain_profile_schema (ie : ImportEnv) (g : Globals) (w w' : World)
      (p : gmap string value) :
  import_module ie = Ok g ->
  get_profile g ∅ w = (Ok p, w') ->
  has_schema p.
Proof.
  intros Himp. run_plain_call. intros [= <- <-].
  rewrite (import_module_start_time ie g Himp). unfold has_schema.
  rewrite <- !insert_union_l, (left_id_L ∅ (∪)).
  split; [solve_dom|]. split.
  - eexists. split; [solve_lookup|solve_dom].
  - eexists _, _. split; [solve_lookup|].
    split; [solve_dom|]. split; [solve_lookup|solve_dom].
Qed.

Lemma plain_profile_guid (ie : ImportEnv) (g : Globals) (w w' : World)
      (p : gmap string value) :
  import_module ie = Ok g ->
  get_profile g ∅ w = (Ok p, w') ->
  p !! "guid" = Some (VStr (INSTANCE_ID g)).
Proof.
  intros Himp. run_plain_call. intros [= <- <-].
  rewrite (import_module_start_time ie g Himp).
  rewrite <- !insert_union_l, (left_id_L ∅ (∪)). solve_lookup.
Qed.

Lemma plain_profile_features (ie : ImportEnv) (g : Globals) (w w' : World)
      (p : gmap string value) :
  import_module ie = Ok g ->
  get_profile g ∅ w = (Ok p, w') ->
  lookup_path ["python"; "features"] (VDict p) =
    Some (VDict (python_features g)).
Proof.
  intros Himp. run_plain_call. intros [= <- <-].
  rewrite (import_module_start_time ie g Himp).
  rewrite <- !insert_union_l, (left_id_L ∅ (∪)).
  cbn [lookup_path].
  repeat (rewrite lookup_insert_ne by discriminate).
  rewrite lookup_insert_eq, lookup_insert_eq. reflexivity.
Qed.

Lemma plain_profile_umask (ie : ImportEnv) (g : Globals) (w w' : World)
      (p : gmap string value) :
  import_module ie = Ok g ->
  get_profile g ∅ w = (Ok p, w') ->
  p !! "umask" = Some (VStr (rjust 3 (chr 48) (oct (PY_GT_2 g) 2)))
  /\ w_umask w' = Z.land (w_umask w) 511.
Proof.
  intros Himp. run_plain_call. intros [= <- <-].
  rewrite (import_module_start_time ie g Himp).
  rewrite <- !insert_union_l, (left_id_L ∅ (∪)).
  split; [solve_lookup|reflexivity].
Qed.

(** *** Any call *)

Lemma profile_schema (ie : ImportEnv) (g : Globals)
      (kwargs : gmap string value) (w w' : World) (p : gmap string value) :
  import_module ie = Ok g ->
  get_profile g kwargs w = (Ok p, w') ->
  has_schema p.
Proof.
  intros Himp H. destruct (scrub_of kwargs) eqn:Hs.
  - destruct (get_profile_scrubbed g kwargs w w' p Hs H) as (p0 & H0 & Hm).
    eapply masked_schema; [|exact Hm].
    exact (plain_profile_schema ie g w w' p0 Himp H0).
  - apply (plain_profile_schema ie g w w' p Himp).
    exact (get_profile_unscrubbed g kwargs w w' p Hs H).
Qed.

(** The part of a call that does not depend on [scrub]: the instance
    identifier, the feature dictionary, the umask field and the umask the
    process is left with. *)
Lemma profile_constants (ie : ImportEnv) (g : Globals)
      (kwargs : gmap string value) (w w' : World) (p : gmap string value) :
  import_module ie = Ok g ->
  get_profile g kwargs w = (Ok p, w') ->
  lookup_path ["guid"] (VDict p) = Some (VStr (INSTANCE_ID g))
  /\ lookup_path ["python"; "features"] (VDict p) =
       Some (VDict (python_features g))
  /\ lookup_path ["umask"] (VDict p) =
       Some (VStr (rjust 3 (chr 48) (oct (PY_GT_2 g) 2)))
  /\ w_umask w' = Z.land (w_umask w) 511.
Proof.
  intros Himp H.
  assert (Hplain : forall p0, get_profile g ∅ w = (Ok p0, w') ->
            lookup_path ["guid"] (VDict p0) = Some (VStr (INSTANCE_ID g))
            /\ lookup_path ["python"; "features"] (VDict p0) =
                 Some (VDict (python_features g))
            /\ lookup_path ["umask"] (VDict p0) =
                 Some (VStr (rjust 3 (chr 48) (oct (PY_GT_2 g) 2)))
            /\ w_umask w' = Z.land (w_umask w) 511).
  { intros p0 H0.
    destruct (plain_profile_umask ie g w w' p0 Himp H0) as [Hu Hw].
    pose proof (plain_profile_guid ie g w w' p0 Himp H0) as Hg.
    pose proof (plain_profile_features ie g w w' p0 Himp H0) as Hf.
    cbn [lookup_path]. rewrite Hg, Hu. auto. }
  destruct (scrub_of kwargs) eqn:Hs.
  - destruct (get_profile_scrubbed g kwargs w w' p Hs H) as (p0 & H0 & Hm).
    destruct (mask_identifiable_Ok p0 p Hm) as (py & un & Hpy & Hun & ->).
    rewrite !(masked_frame p0 py un) by (assumption || reflexivity).
    exact (Hplain p0 H0).
  - exact (Hplain p (get_profile_unscrubbed g kwargs w w' p Hs H)).
Qed.

(** With no keyword other than [scrub], a call is the call without
    keywords, followed by the scrub block when [scrub] is true. *)
Lemma get_profile_only_scrub (g : Globals) (kwargs : gmap string value)
      (w : World) :
  only_scrub kwargs ->
  get_profile g kwargs w =
    match get_profile g ∅ w with
    | (Ok p, w') =>
        if scrub_of kwargs then (mask_identifiable p, w') else (Ok p, w')
    | (Raise e, w') => (Raise e, w')
    end.
Proof.
  intros Honly. unfold only_scrub in Honly. unfold_profile.
  rewrite Honly, delete_empty, map_to_list_empty, lookup_empty.
  change (truthy (default (VBool false) None)) with false. cbv iota.
  split_lookups; try reflexivity.
  destruct (truthy _); reflexivity.
Qed.

Lemma try_except_Exception_Raise {A : Type} (r : result A) (h : A) (e : exn) :
  try_except_Exception r h = Raise e ->
  raises r e /\ is_Exception e = false.
Proof.
  unfold try_except_Exception, raises. destruct r as [a|e']; [discriminate|].
  destruct (is_Exception e') eqn:He; [discriminate|].
  intros [= <-]. split; [reflexivity|exact He].
Qed.

Lemma try_except_Exception_catchable {A : Type} (r : result A) (h : A) :
  catchable r = true -> exists a, try_except_Exception r h = Ok a.
Proof.
  unfold try_except_Exception, catchable. destruct r as [a|e]; [eauto|].
  intros ->. eauto.
Qed.

Lemma is_Ok_true {A : Type} (r : result A) :
  is_Ok r = true -> exists a, r = Ok a.
Proof. destruct r; [eauto|discriminate]. Qed.

(** What comes out of a call without keywords that raises. *)
Lemma plain_profile_raise (g : Globals) (w w' : World) (e : exn) :
  get_profile g ∅ w = (Raise e, w') -> propagated w e.
Proof.
  run_plain_call;
    repeat match goal with
      | H : try_except_Exception _ _ = Raise _ |- _ =>
          apply try_except_Exception_Raise in H
      | H : _escape_shell_args _ _ _ None = Raise _ |- _ =>
          rewrite escape_shell_args_default in H; discriminate H
      end;
    intros [= <- <-]; unfold propagated, raises; tauto.
Qed.

(** A call without keywords returns when its lookups succeed. *)
Lemma plain_profile_returns (g : Globals) (w : World) :
  lookups_succeed w = true ->
  exists (p : gmap string value) (w' : World),
    get_profile g ∅ w = (Ok p, w').
Proof.
  unfold lookups_succeed. rewrite !andb_true_iff.
  intros [[[[[[[Huser Hhost] Hfqdn] Huname] Hdist] Hcwd] Hcomp] Hbuild].
  destruct (try_except_Exception_catchable _ EmptyString Huser) as [user Eu].
  destruct (try_except_Exception_catchable _
              (EmptyString, EmptyString, EmptyString) Hdist)
    as [[[d0 d1] d2] Ed].
  destruct (is_Ok_true _ Hhost) as [host Eh].
  destruct (is_Ok_true _ Hfqdn) as [fqdn Ef].
  destruct (is_Ok_true _ Huname) as [[[[[[u0 u1] u2] u3] u4] u5] Eun].
  destruct (is_Ok_true _ Hcwd) as [cwd Ec].
  destruct (is_Ok_true _ Hcomp) as [comp Eco].
  destruct (is_Ok_true _ Hbuild) as [build Eb].
  unfold_profile.
  rewrite delete_empty, map_to_list_empty, lookup_empty.
  change (truthy (default (VBool false) None)) with false.
  rewrite Eu, Eh, Ef, Eun, Ed, Ec, escape_shell_args_default, Eco, Eb.
  cbv iota. eauto.
Qed.

End ProfileSchema.

(** ** The statements on the profile builder *)

Section ProfileClaims.
Import PyStr Quoter Ecoutils Vocabulary.

(** Every lookup of the sample process succeeds or is caught. *)
Lemma sample_call_returns (kwargs : gmap string value) :
  only_scrub kwargs ->
  exists (p : gmap string value) (w' : World),
    get_profile sample_globals kwargs sample_world = (Ok p, w').
Proof.
  intros Honly. rewrite (get_profile_only_scrub _ _ _ Honly).
  destruct (plain_profile_returns sample_globals sample_world eq_refl)
    as (p & w' & Hp).
  rewrite Hp. destruct (scrub_of kwargs); [|eauto].
  destruct (plain_profile_schema _ _ _ _ _ import_sample Hp)
    as (_ & (u & Hu & _) & (py & _ & Hpy & _)).
  rewrite (mask_identifiable_dicts p py u Hpy Hu). eauto.
Defined.

(** C1. Whatever the keywords, the probes of the import and the lookups
    of the call did, a dictionary that [get_profile] returns has exactly the
    seventeen top-level keys, the six keys of [uname], the seven keys of
    [python] and the ten keys of [python.features]. *)
Theorem get_profile_fixed_schema :
  forall (ie : ImportEnv) (g : Globals) (kwargs : gmap string value)
         (w w' : World) (p : gmap string value),
    import_module ie = Ok g ->
    get_profile g kwargs w = (Ok p, w') ->
    has_schema p.
Proof. exact profile_schema. Qed.

Lemma get_profile_fixed_schema_witness :
  (exists (p : gmap string value) (w' : World),
     get_profile sample_globals {["scrub" := VBool true]} sample_world
       = (Ok p, w')
     /\ has_schema p)
  /\ (exists (p : gmap string value) (w' : World),
        get_profile sample_globals {["scrub" := VBool false]} sample_world
          = (Ok p, w')
        /\ has_schema p).
Proof.
  split.
  - destruct (sample_call_returns {["scrub" := VBool true]}
                (delete_singleton_eq _ _)) as (p & w' & H).
    exists p, w'. split; [exact H|].
    exact (get_profile_fixed_schema sample_import sample_globals _
             sample_world w' p import_sample H).
  - destruct (sample_call_returns {["scrub" := VBool false]}
                (delete_singleton_eq _ _)) as (p & w' & H).
    exists p, w'. split; [exact H|].
    exact (get_profile_fixed_schema sample_import sample_globals _
             sample_world w' p import_sample H).
Defined.

(** C2. In the same process state, the call with [scrub] true holds the
    placeholder in the seven masked fields, and agrees with the call with
    [scrub] false on every field apart from them; both results have the
    fixed keys. *)
Theorem scrub_masks_seven_fields :
  forall (ie : ImportEnv) (g : Globals) (kw_plain kw_scrub : gmap string value)
         (w w1 w2 : World) (p pt : gmap string value),
    import_module ie = Ok g ->
    scrub_of kw_plain = false ->
    scrub_of kw_scrub = true ->
    get_profile g kw_plain w = (Ok p, w1) ->
    get_profile g kw_scrub w = (Ok pt, w2) ->
    (forall path, In path scrubbed_paths ->
       lookup_path path (VDict pt) = Some (VStr "-"))
    /\ (forall path, apart_from_scrubbed path = true ->
          lookup_path path (VDict pt) = lookup_path path (VDict p))
    /\ has_schema p /\ has_schema pt.
Proof.
  intros ie g kwp kws w w1 w2 p pt Himp Hp Hs H1 H2.
  apply get_profile_unscrubbed in H1; [|exact Hp].
  destruct (get_profile_scrubbed g kws w w2 pt Hs H2) as (p0 & H0 & Hm).
  assert (p0 = p) as -> by congruence.
  pose proof (plain_profile_schema ie g w w1 p Himp H1) as Hschema.
  destruct (mask_identifiable_Ok p pt Hm) as (py & un & Hpy & Hun & ->).
  split; [|split; [|split]].
  - intros path Hin. now apply masked_placeholders.
  - intros path Hpath. now apply masked_frame.
  - exact Hschema.
  - eapply masked_schema; [exact Hschema|].
    now apply mask_identifiable_dicts.
Qed.

Lemma scrub_masks_seven_fields_witness :
  exists (p pt : gmap string value),
    fst (get_profile sample_globals ∅ sample_world) = Ok p
    /\ fst (get_profile sample_globals {["scrub" := VBool true]} sample_world)
         = Ok pt
    /\ lookup_path ["python"; "argv"] (VDict pt) = Some (VStr "-")
    /\ lookup_path ["python"; "version"] (VDict pt) =
         lookup_path ["python"; "version"] (VDict p).
Proof.
  destruct (sample_call_returns ∅ (delete_empty _)) as (p & w1 & H1).
  destruct (sample_call_returns {["scrub" := VBool true]}
              (delete_singleton_eq _ _)) as (pt & w2 & H2).
  destruct (scrub_masks_seven_fields sample_import sample_globals
              ∅ {["scrub" := VBool true]} sample_world w1 w2 p pt
              import_sample scrub_of_empty (scrub_of_bool true) H1 H2)
    as (Hmask & Hframe & _ & _).
  exists p, pt. rewrite H1, H2.
  split; [reflexivity|]. split; [reflexivity|]. split.
  - apply Hmask. cbn. tauto.
  - apply Hframe. reflexivity.
Defined.

(** C3, on a process whose umask is 022.  The call leaves the umask at 022,
    but the [umask] field it returns is [002], the rendering of the
    temporary mask, where the claim asks for [022]: the outer [os.umask]
    returns the mask the inner one installed. *)
Theorem umask_field_is_the_temporary_mask :
  w_umask sample_world = 18
  /\ rjust 3 (chr 48) (oct (PY_GT_2 sample_globals) (w_umask sample_world))
       = "022"
  /\ exists (p : gmap string value) (w' : World),
       get_profile sample_globals ∅ sample_world = (Ok p, w')
       /\ lookup_path ["umask"] (VDict p) = Some (VStr "002")
       /\ w_umask w' = 18.
Proof.
  split; [reflexivity|]. split; [reflexivity|].
  destruct (sample_call_returns ∅ (delete_empty _)) as (p & w' & H).
  exists p, w'. split; [exact H|].
  destruct (profile_constants _ _ _ _ _ _ import_sample H)
    as (_ & _ & Hu & Hw).
  split; [exact Hu|exact Hw].
Qed.

(** C8. Two calls made in one process, whatever their keywords and
    whatever the process state at each call, return the same [guid], which
    is the [INSTANCE_ID] of the import, and the same [python.features]
    dictionary, which holds the probe results of the import. *)
Theorem get_profile_identity_stable :
  forall (ie : ImportEnv) (g : Globals) (kw1 kw2 : gmap string value)
         (w1 w1' w2 w2' : World) (p1 p2 : gmap string value),
    import_module ie = Ok g ->
    get_profile g kw1 w1 = (Ok p1, w1') ->
    get_profile g kw2 w2 = (Ok p2, w2') ->
    lookup_path ["guid"] (VDict p1) = Some (VStr (INSTANCE_ID g))
    /\ lookup_path ["guid"] (VDict p2) = lookup_path ["guid"] (VDict p1)
    /\ lookup_path ["python"; "features"] (VDict p1) =
         Some (VDict (python_features g))
    /\ lookup_path ["python"; "features"] (VDict p2) =
         lookup_path ["python"; "features"] (VDict p1).
Proof.
  intros ie g kw1 kw2 w1 w1' w2 w2' p1 p2 Himp H1 H2.
  destruct (profile_constants ie g kw1 w1 w1' p1 Himp H1) as (Hg1 & Hf1 & _).
  destruct (profile_constants ie g kw2 w2 w2' p2 Himp H2) as (Hg2 & Hf2 & _).
  rewrite Hg1, Hg2, Hf1, Hf2. auto.
Qed.

Lemma get_profile_identity_stable_witness :
  exists (p1 p2 : gmap string value),
    fst (get_profile sample_globals ∅ sample_world) = Ok p1
    /\ fst (get_profile sample_globals {["scrub" := VBool true]} sample_world)
         = Ok p2
    /\ lookup_path ["guid"] (VDict p1) = Some (VStr "beef")
    /\ lookup_path ["guid"] (VDict p2) = lookup_path ["guid"] (VDict p1)
    /\ lookup_path ["python"; "features"] (VDict p2) =
         lookup_path ["python"; "features"] (VDict p1).
Proof.
  destruct (sample_call_returns ∅ (delete_empty _)) as (p1 & w1 & H1).
  destruct (sample_call_returns {["scrub" := VBool true]}
              (delete_singleton_eq _ _)) as (p2 & w2 & H2).
  destruct (get_profile_identity_stable sample_import sample_globals
              ∅ {["scrub" := VBool true]} sample_world w1 sample_world w2
              p1 p2 import_sample H1 H2)
    as (Hg & Hgg & _ & Hff).
  exists p1, p2. rewrite H1, H2. auto.
Defined.

(** An unrecognized keyword is rejected before any lookup. *)
Lemma get_profile_unexpected_keyword (g : Globals)
      (kwargs : gmap string value) (w : World) :
  ~ only_scrub kwargs ->
  get_profile g kwargs w =
    (Raise (TypeError (map_to_list (delete "scrub" kwargs)).*1), w).
Proof.
  intros Hkw. unfold only_scrub in Hkw. unfold get_profile.
  destruct (map_to_list (delete "scrub" kwargs)) eqn:E; [|reflexivity].
  now apply map_to_list_empty_iff in E.
Qed.

Lemma catchable_bind {A B : Type} (r : result A) (k : A -> result B) :
  catchable r = true ->
  (forall a, catchable (k a) = true) ->
  catchable (result_bind r k) = true.
Proof. destruct r as [a|e]; intros Hr Hk; [apply Hk|exact Hr]. Qed.

Lemma catchable_openssl_inner (ie : ImportEnv) :
  catchable (ie_ssl_OPENSSL_VERSION ie) = true ->
  catchable (openssl_inner ie) = true.
Proof.
  unfold openssl_inner.
  destruct (ie_ssl_OPENSSL_VERSION ie) as [v|[]]; intros H;
    solve [reflexivity | exact H].
Qed.

(** The module body handles the failure of every probe. *)
Lemma import_module_isolates_probes (ie : ImportEnv) :
  probes_catchable ie = true -> exists g : Globals, import_module ie = Ok g.
Proof.
  unfold probes_catchable. rewrite !andb_true_iff.
  intros [[[[[[[[[[H1 H2] H3] H4] H5] H6] H7] H8] H9] H10] H11].
  unfold import_module.
  repeat match goal with
    | |- context [result_bind (try_except_Exception ?r ?h) _] =>
        let E := fresh "E" in
        destruct (try_except_Exception_catchable r h) as [? E];
        [ first [ assumption
                | apply catchable_bind;
                  [assumption
                  |intros _; first [reflexivity
                                     |now apply catchable_openssl_inner]] ]
        | rewrite E; cbn [result_bind] ]
    end.
  eauto.
Qed.

(** C9 (amended). With no keyword other than [scrub]: when the user name
    and Linux distribution lookups raise nothing past [except Exception]
    and the host name, FQDN, uname, working directory, compiler and build
    lookups succeed, the call returns a dictionary with the fixed keys; and
    when the call raises, the exception is one that a lookup outside of a
    [try] block raised, or one that [except Exception] does not catch. *)
Theorem get_profile_lookup_failures :
  forall (ie : ImportEnv) (g : Globals) (kwargs : gmap string value)
         (w : World),
    import_module ie = Ok g ->
    only_scrub kwargs ->
    (lookups_succeed w = true ->
       exists (p : gmap string value) (w' : World),
         get_profile g kwargs w = (Ok p, w') /\ has_schema p)
    /\ (forall (e : exn) (w' : World),
          get_profile g kwargs w = (Raise e, w') -> propagated w e).
Proof.
  intros ie g kwargs w Himp Honly.
  assert (Hmask : forall p0 w0, get_profile g ∅ w = (Ok p0, w0) ->
            exists pt, mask_identifiable p0 = Ok pt).
  { intros p0 w0 H0.
    destruct (plain_profile_schema ie g w w0 p0 Himp H0)
      as (_ & (u & Hu & _) & (py & _ & Hpy & _)).
    rewrite (mask_identifiable_dicts p0 py u Hpy Hu). eauto. }
  split.
  - intros Hok.
    destruct (plain_profile_returns g w Hok) as (p0 & w0 & H0).
    assert (Hret : exists p w', get_profile g kwargs w = (Ok p, w')).
    { rewrite (get_profile_only_scrub g kwargs w Honly), H0.
      destruct (scrub_of kwargs); [|eauto].
      destruct (Hmask p0 w0 H0) as [pt ->]. eauto. }
    destruct Hret as (p & w' & H). exists p, w'. split; [exact H|].
    exact (profile_schema ie g kwargs w w' p Himp H).
  - intros e w' H.
    rewrite (get_profile_only_scrub g kwargs w Honly) in H.
    destruct (get_profile g ∅ w) as [[p0|e0] w0] eqn:H0.
    + destruct (Hmask p0 w0 eq_refl) as [pt Hpt].
      destruct (scrub_of kwargs); [rewrite Hpt in H|]; discriminate H.
    + injection H as <- <-. exact (plain_profile_raise g w w0 e0 H0).
Qed.

Lemma get_profile_lookup_failures_witness :
  (exists (p : gmap string value) (w' : World),
     get_profile sample_globals ∅ sample_world = (Ok p, w') /\ has_schema p)
  /\ (forall (e : exn) (w' : World),
        get_profile sample_globals ∅ sample_world = (Raise e, w') ->
        propagated sample_world e).
Proof.
  destruct (get_profile_lookup_failures sample_import sample_globals ∅
              sample_world import_sample (delete_empty _)) as [Hret Hraise].
  split; [exact (Hret eq_refl)|exact Hraise].
Defined.

(** C9 as first stated fails: with no keyword at all, on a host whose
    working directory was removed, [os.getcwd] raises [OSError] and the
    call lets it through; the umask has not been touched yet. *)
Lemma get_profile_raises_without_cwd :
  only_scrub ∅
  /\ import_module sample_import = Ok sample_globals
  /\ get_profile sample_globals ∅ world_without_cwd
       = (Raise OSError, world_without_cwd).
Proof.
  split; [apply delete_empty|]. split; [exact import_sample|].
  vm_compute. reflexivity.
Qed.

End ProfileClaims.

(** * Further properties of the shell escaping *)

Section PosixRoundTrip.
Import PyStr Quoter Reader Vocabulary Vocabulary2.

(** A safe character is neither a blank, nor a quote, nor a backslash, nor
    special to the shell. *)
Lemma sh_safe_char_plain (c : ascii) :
  sh_safe_char c = true ->
  Ascii.eqb c space = false /\ Ascii.eqb c tab = false
  /\ Ascii.eqb c squote = false /\ Ascii.eqb c dquote = false
  /\ Ascii.eqb c backslash = false /\ sh_special c = false.
Proof.
  destruct c as [[] [] [] [] [] [] [] []]; vm_compute;
    intros H; try discriminate H; repeat split; reflexivity.
Qed.

Lemma sh_scan_bare_plain (c : ascii) (s : string) (cur : option string) :
  sh_safe_char c = true ->
  sh_scan Bare cur (String c s) = sh_scan Bare (push cur c) s.
Proof.
  intros H.
  destruct (sh_safe_char_plain c H) as (H1 & H2 & H3 & H4 & H5 & H6).
  cbn [sh_scan]. now rewrite H1, H2, H3, H4, H5, H6.
Qed.

Lemma push_push_str (cur : option string) (c : ascii) (s : string) :
  push_str (push cur c) s = push_str cur (String c s).
Proof.
  destruct cur as [w|], s as [|d s];
    cbn [push push_str default from_option id];
    rewrite ?str_app_assoc; reflexivity.
Qed.

(** A run of safe characters is read as it stands. *)
Lemma sh_scan_bare_safe (s rest : string) (cur : option string) :
  all_safe s = true ->
  sh_scan Bare cur (s +:+ rest) = sh_scan Bare (push_str cur s) rest.
Proof.
  revert cur. induction s as [|c s IH]; intros cur Hs; [reflexivity|].
  cbn [all_safe] in Hs. apply andb_true_iff in Hs as [Hc Hs].
  rewrite str_app_cons, sh_scan_bare_plain, IH by assumption.
  now rewrite push_push_str.
Qed.

(** Inside single quotes the escaped text is read back as the text. *)
Lemma sh_scan_single_escaped (a rest w : string) :
  sh_scan Single (Some w)
    (replace1 squote sh_squote_escape a +:+ String squote rest) =
  sh_scan Bare (Some (w +:+ a)) rest.
Proof.
  revert w. induction a as [|c a IH]; intros w.
  - cbn [replace1]. change (EmptyString +:+ String squote rest)
      with (String squote rest).
    cbn [sh_scan]. rewrite Ascii.eqb_refl. now rewrite str_app_nil_r.
  - cbn [replace1]. destruct (Ascii.eqb_spec c squote) as [->|Hc].
    + rewrite str_app_assoc.
      change (sh_scan Single (Some w)
                (sh_squote_escape +:+
                   replace1 squote sh_squote_escape a +:+ String squote rest))
        with (sh_scan Single (Some (w +:+ str1 squote))
                (replace1 squote sh_squote_escape a +:+ String squote rest)).
      rewrite IH, str_app_assoc. reflexivity.
    + rewrite str_app_cons. cbn [sh_scan].
      apply Ascii.eqb_neq in Hc. rewrite Hc. cbn [push].
      rewrite IH, str_app_assoc. reflexivity.
Qed.

Lemma find_sh_unsafe_from_all_safe (arg : string) (i : nat) :
  find_sh_unsafe_from i arg = None <-> all_safe arg = true.
Proof.
  revert i. induction arg as [|c arg IH]; intros i; [tauto|].
  cbn [find_sh_unsafe_from all_safe].
  destruct (sh_safe_char c); [apply IH|]. split; discriminate.
Qed.

(** The token of an argument is read back as the argument. *)
Lemma sh_scan_token (arg rest : string) :
  sh_scan Bare None (join " " (args2sh_step [] arg) +:+ rest) =
  sh_scan Bare (Some arg) rest.
Proof.
  unfold args2sh_step.
  destruct (String.eqb_spec arg EmptyString) as [->|Hne]; [reflexivity|].
  destruct (_find_sh_unsafe arg) eqn:Hfind.
  - cbn [app join]. rewrite !str_app_assoc.
    change (sh_scan Bare None
              (str1 squote +:+
                 replace1 squote sh_squote_escape arg +:+ str1 squote +:+ rest))
      with (sh_scan Single (Some EmptyString)
              (replace1 squote sh_squote_escape arg +:+ String squote rest)).
    now rewrite sh_scan_single_escaped.
  - apply find_sh_unsafe_from_all_safe in Hfind.
    cbn [app join]. rewrite sh_scan_bare_safe by assumption.
    destruct arg; [congruence|reflexivity].
Qed.

Lemma sh_scan_tokens (args : list string) :
  sh_scan Bare None
    (join " " (map (fun a => join " " (args2sh_step [] a)) args)) = Some args.
Proof.
  induction args as [|a [|b args] IH]; [reflexivity| |].
  - cbn [map join]. rewrite <- (str_app_nil_r (join " " (args2sh_step [] a))).
    now rewrite sh_scan_token.
  - cbn [map] in *. rewrite join_cons_cons, sh_scan_token.
    change (" " +:+ ?x) with (String space x).
    cbn [sh_scan]. change (Ascii.eqb space space) with true. cbn [orb].
    now rewrite IH.
Qed.

Lemma sh_tokenize_args2sh (args : list string) (sep : string) :
  sh_tokenize (_args2sh args sep) = Some args.
Proof.
  unfold sh_tokenize, _args2sh. rewrite args2sh_fold. apply sh_scan_tokens.
Qed.

(** X1. Whatever the arguments, the POSIX tokenizer reads the line
    [_args2sh] writes back as the arguments, in order. *)
Theorem args2sh_roundtrip :
  forall (args : list string) (sep : string),
    sh_tokenize (_args2sh args sep) = Some args.
Proof. exact sh_tokenize_args2sh. Qed.

(** X3. Arguments that are not empty and made of safe characters only are
    written as they stand, joined by single spaces. *)
Theorem args2sh_safe_unchanged :
  forall (args : list string) (sep : string),
    Forall (fun a => a <> EmptyString /\ all_safe a = true) args ->
    _args2sh args sep = join " " args.
Proof.
  intros args sep Hall. unfold _args2sh. rewrite args2sh_fold.
  cbn [app]. f_equal. induction Hall as [|a args [Hne Hsafe] _ IH]; [reflexivity|].
  cbn [map]. rewrite IH. f_equal. unfold args2sh_step.
  destruct (String.eqb_spec a EmptyString); [congruence|].
  apply (find_sh_unsafe_from_all_safe a 0) in Hsafe.
  unfold _find_sh_unsafe. now rewrite Hsafe.
Qed.

Lemma args2sh_safe_unchanged_witness :
  _args2sh ["python"; "-m"; "boltons.ecoutils"] " " = "python -m boltons.ecoutils".
Proof.
  apply (args2sh_safe_unchanged ["python"; "-m"; "boltons.ecoutils"] " ").
  repeat constructor; discriminate.
Defined.

End PosixRoundTrip.

Section WindowsRoundTrip.
Import PyStr Quoter Reader Vocabulary Vocabulary2.

Lemma bs_succ (n : nat) : bs (S n) = String backslash (bs n).
Proof. reflexivity. Qed.

Lemma bs_snoc (n : nat) (s : string) :
  bs n +:+ String backslash s = bs (S n) +:+ s.
Proof.
  induction n as [|n IH]; [reflexivity|].
  rewrite !bs_succ, !str_app_cons, IH. reflexivity.
Qed.

Lemma bs_double (n : nat) : repeat (bs n) 2 = bs (2 * n).
Proof.
  cbn [repeat]. rewrite str_app_nil_r.
  replace (2 * n)%nat with (n + n)%nat by lia.
  symmetry. apply repeat_add.
Qed.

Lemma repeat_snoc {A : Type} (x : A) (n : nat) :
  List.repeat x n ++ [x] = List.repeat x (S n).
Proof. induction n as [|n IH]; [reflexivity|]. cbn. now rewrite IH. Qed.

(** The loop of [_args2cmd] writes [cmd_enc]. *)
Lemma args2cmd_scan_enc (q : bool) (s : string) (r : list string) (n : nat) :
  join EmptyString
    (cmd_finish q (string_fold args2cmd_char s (r, List.repeat (str1 backslash) n)))
  = join EmptyString r +:+ cmd_enc q n s.
Proof.
  revert r n. induction s as [|c s IH]; intros r n.
  - cbn [string_fold cmd_finish cmd_enc].
    assert (Hflush : join EmptyString
              (match List.repeat (str1 backslash) n with
               | [] => r
               | _ :: _ => r ++ List.repeat (str1 backslash) n
               end) = join EmptyString r +:+ bs n).
    { destruct n as [|n].
      - cbn. now rewrite str_app_nil_r.
      - cbn [List.repeat]. rewrite join_empty_app. f_equal.
        apply (join_empty_repeat (str1 backslash) (S n)). }
    destruct q.
    + rewrite !join_empty_app, Hflush, join_empty_repeat.
      change (join EmptyString [str1 dquote]) with dq.
      now rewrite !str_app_assoc.
    + rewrite Hflush, str_app_nil_r. reflexivity.
  - cbn [string_fold cmd_enc]. unfold args2cmd_char at 2.
    destruct (Ascii.eqb_spec c backslash) as [->|Hc].
    + rewrite repeat_snoc. apply IH.
    + destruct (Ascii.eqb c dquote).
      * rewrite (IH _ 0%nat). rewrite !join_empty_app, repeat_length.
        change (join EmptyString [String backslash (str1 dquote)])
          with (String backslash (str1 dquote)).
        rewrite join_empty_cons. change (join EmptyString []) with EmptyString.
        rewrite str_app_nil_r.
        change (repeat (str1 backslash) n) with (bs n). rewrite bs_double.
        now rewrite !str_app_assoc.
      * assert (Hstep :
          join EmptyString
            (match List.repeat (str1 backslash) n with
             | [] => r ++ [str1 c]
             | _ :: _ => (r ++ List.repeat (str1 backslash) n) ++ [str1 c]
             end) = join EmptyString r +:+ bs n +:+ str1 c).
        { destruct n as [|n].
          - cbn [List.repeat]. now rewrite join_empty_app.
          - cbn [List.repeat]. rewrite !join_empty_app.
            change (join EmptyString [str1 c]) with (str1 c).
            change (str1 backslash :: List.repeat (str1 backslash) n)
              with (List.repeat (str1 backslash) (S n)).
            rewrite (join_empty_repeat (str1 backslash) (S n)).
            now rewrite str_app_assoc. }
        destruct (List.repeat (str1 backslash) n) eqn:E;
          rewrite (IH _ 0%nat), Hstep, !str_app_assoc; reflexivity.
Qed.

(** The token of an argument. *)
Lemma args2cmd_step_enc (arg : string) :
  join EmptyString (args2cmd_step [] arg) =
    (if needquote arg then dq else EmptyString)
    +:+ cmd_enc (needquote arg) 0 arg.
Proof.
  pose proof (args2cmd_scan_enc (needquote arg) arg
                (if needquote arg then [str1 dquote] else []) 0) as H.
  unfold cmd_finish in H. cbn [List.repeat] in H.
  unfold args2cmd_step. cbn [app].
  destruct (needquote arg);
    destruct (string_fold args2cmd_char arg _) as [r b]; exact H.
Qed.

(** *** The reader on what the loop writes *)

Lemma cmd_scan_bs (q : bool) (m k : nat) (cur : option string) (rest : string) :
  cmd_scan q m cur (bs k +:+ rest) = cmd_scan q (m + k) cur rest.
Proof.
  revert m. induction k as [|k IH]; intros m.
  - now rewrite Nat.add_0_r.
  - rewrite bs_succ, str_app_cons. cbn [cmd_scan].
    change (Ascii.eqb backslash backslash) with true. cbv iota.
    rewrite IH. f_equal. lia.
Qed.

Lemma push_str_nonempty (cur : option string) (t : string) :
  t <> EmptyString -> push_str cur t = Some (default EmptyString cur +:+ t).
Proof. destruct t; [congruence|reflexivity]. Qed.

Lemma push_backslashes_str (cur : option string) (n : nat) :
  push_backslashes cur n = push_str cur (bs n).
Proof. destruct n; reflexivity. Qed.

Lemma push_after_backslashes (cur : option string) (n : nat) (c : ascii) :
  push (push_backslashes cur n) c =
    Some (default EmptyString cur +:+ bs n +:+ str1 c).
Proof.
  destruct n as [|n].
  - destruct cur; reflexivity.
  - cbn [push_backslashes push]. now rewrite str_app_assoc.
Qed.

Lemma default_start (cur : option string) :
  default EmptyString (start cur) = default EmptyString cur.
Proof. destruct cur; reflexivity. Qed.

Lemma cmd_scan_quote_odd (q : bool) (n : nat) (cur : option string)
      (rest : string) :
  cmd_scan q (S (2 * n)) cur (String dquote rest) =
    cmd_scan q 0 (Some (default EmptyString cur +:+ bs n +:+ str1 dquote)) rest.
Proof.
  cbn [cmd_scan]. change (Ascii.eqb dquote backslash) with false.
  change (Ascii.eqb dquote dquote) with true. cbv iota.
  rewrite Nat.even_succ, Nat.odd_mul, Bool.andb_false_l.
  rewrite Nat.div2_succ_double.
  now rewrite push_after_backslashes, default_start.
Qed.

Lemma cmd_scan_quote_even (q : bool) (n : nat) (cur : option string)
      (rest : string) :
  cmd_scan q (2 * n) cur (String dquote rest) =
    cmd_scan (negb q) 0 (push_backslashes (start cur) n) rest.
Proof.
  cbn [cmd_scan]. change (Ascii.eqb dquote backslash) with false.
  change (Ascii.eqb dquote dquote) with true. cbv iota.
  rewrite Nat.even_mul, Bool.orb_true_l.
  now rewrite Nat.div2_double.
Qed.

Lemma cmd_scan_other (q : bool) (n : nat) (cur : option string) (c : ascii)
      (rest : string) :
  Ascii.eqb c backslash = false ->
  Ascii.eqb c dquote = false ->
  (Ascii.eqb c space || Ascii.eqb c tab) && negb q = false ->
  cmd_scan q n cur (String c rest) =
    cmd_scan q 0 (Some (default EmptyString cur +:+ bs n +:+ str1 c)) rest.
Proof.
  intros H1 H2 H3. cbn [cmd_scan]. rewrite H1, H2, H3.
  now rewrite push_after_backslashes.
Qed.

Lemma contains_cons_false (a c : ascii) (s : string) :
  contains a (String c s) = false ->
  Ascii.eqb c a = false /\ contains a s = false.
Proof.
  cbn [contains]. rewrite (Ascii.eqb_sym c a).
  destruct (Ascii.eqb a c); [discriminate|auto].
Qed.

(** Reading what the loop writes for [s], with [n] backslashes buffered,
    adds those backslashes and [s] to the current word and leaves the quotes. *)
Lemma cmd_scan_enc (q : bool) (s : string) (n : nat) (cur : option string)
      (rest : string) :
  terminated rest ->
  (q = true -> cur <> None) ->
  (q = false -> contains space s = false /\ contains tab s = false) ->
  cmd_scan q 0 cur (cmd_enc q n s +:+ rest) =
    cmd_scan false 0 (push_str cur (bs n +:+ s)) rest.
Proof.
  intros Hrest. revert n cur.
  induction s as [|c s IH]; intros n cur Hcur Hblank.
  - cbn [cmd_enc]. rewrite str_app_nil_r. destruct q.
    + rewrite !str_app_assoc, !cmd_scan_bs.
      change (dq +:+ rest) with (String dquote rest).
      replace (0 + n + n)%nat with (2 * n)%nat by lia.
      rewrite cmd_scan_quote_even. cbn [negb].
      destruct cur as [w|]; [|now destruct Hcur].
      cbn [start]. now rewrite push_backslashes_str.
    + rewrite str_app_assoc, cmd_scan_bs. cbn [Nat.add].
      change (EmptyString +:+ rest) with rest.
      rewrite <- push_backslashes_str.
      destruct Hrest as [->|[rest' ->]]; [reflexivity|].
      cbn [cmd_scan]. change (Ascii.eqb space backslash) with false.
      change (Ascii.eqb space dquote) with false.
      change (Ascii.eqb space space) with true. cbv iota. cbn [orb negb andb].
      cbv iota. reflexivity.
  - cbn [cmd_enc]. destruct (Ascii.eqb_spec c backslash) as [->|Hc].
    + rewrite IH, bs_snoc; [reflexivity|exact Hcur|].
      intros Hq. destruct (Hblank Hq) as [H1 H2].
      apply contains_cons_false in H1 as [_ H1].
      apply contains_cons_false in H2 as [_ H2]. auto.
    + apply Ascii.eqb_neq in Hc.
      assert (Hs : q = false ->
                contains space s = false /\ contains tab s = false).
      { intros Hq. destruct (Hblank Hq) as [H1 H2].
        apply contains_cons_false in H1 as [_ H1].
        apply contains_cons_false in H2 as [_ H2]. auto. }
      destruct (Ascii.eqb c dquote) eqn:Hd.
      * apply Ascii.eqb_eq in Hd as ->.
        rewrite !str_app_assoc, cmd_scan_bs. cbn [Nat.add].
        rewrite str_app_cons. cbn [cmd_scan].
        change (Ascii.eqb backslash backslash) with true. cbv iota.
        change (str1 dquote +:+ cmd_enc q 0 s +:+ rest)
          with (String dquote (cmd_enc q 0 s +:+ rest)).
        rewrite cmd_scan_quote_odd, IH by (congruence || assumption).
        change (bs 0 +:+ s) with s.
        rewrite (push_str_nonempty cur (bs n +:+ String dquote s))
          by (destruct (bs n); discriminate).
        destruct s as [|d s].
        { cbn [push_str]. reflexivity. }
        { cbn [push_str default from_option id].
          now rewrite !str_app_assoc. }
      * rewrite str_app_assoc, cmd_scan_bs. cbn [Nat.add].
        rewrite str_app_cons, cmd_scan_other; [|assumption..|].
        { rewrite IH by (congruence || assumption).
          change (bs 0 +:+ s) with s.
          rewrite (push_str_nonempty cur (bs n +:+ String c s))
            by (destruct (bs n); discriminate).
          destruct s as [|d s].
          - cbn [push_str]. reflexivity.
          - cbn [push_str default from_option id].
            now rewrite !str_app_assoc. }
        { destruct q; [now rewrite Bool.andb_false_r|].
          destruct (Hblank eq_refl) as [H1 H2].
          apply contains_cons_false in H1 as [H1 _].
          apply contains_cons_false in H2 as [H2 _].
          now rewrite H1, H2. }
Qed.

(** The token of an argument is read back as the argument. *)
Lemma cmd_scan_token (arg rest : string) :
  terminated rest ->
  cmd_scan false 0 None (join EmptyString (args2cmd_step [] arg) +:+ rest) =
    cmd_scan false 0 (Some arg) rest.
Proof.
  intros Hrest. rewrite args2cmd_step_enc, str_app_assoc.
  destruct (needquote arg) eqn:Hq.
  - change (dq +:+ ?x) with (String dquote x).
    rewrite (cmd_scan_quote_even false 0 None). cbn [negb start push_backslashes].
    rewrite cmd_scan_enc by (assumption || congruence).
    change (bs 0 +:+ arg) with arg. destruct arg; reflexivity.
  - change (EmptyString +:+ ?x) with x.
    unfold needquote in Hq. rewrite !orb_false_iff in Hq.
    destruct Hq as [[H1 H2] H3].
    rewrite cmd_scan_enc by (assumption || congruence || auto).
    change (bs 0 +:+ arg) with arg.
    destruct arg; [discriminate|reflexivity].
Qed.

Lemma cmd_scan_tokens (args : list string) :
  cmd_scan false 0 None
    (join " " (map (fun a => join EmptyString (args2cmd_step [] a)) args)) =
  args.
Proof.
  induction args as [|a [|b args] IH]; [reflexivity| |].
  - cbn [map join].
    rewrite <- (str_app_nil_r (join EmptyString (args2cmd_step [] a))).
    rewrite cmd_scan_token by (left; reflexivity). reflexivity.
  - cbn [map] in *. rewrite join_cons_cons.
    rewrite cmd_scan_token by (right; eexists; reflexivity).
    change (" " +:+ ?x) with (String space x).
    cbn [cmd_scan]. change (Ascii.eqb space backslash) with false.
    change (Ascii.eqb space dquote) with false.
    change (Ascii.eqb space space) with true. cbv iota. cbn [orb negb andb].
    cbv iota. cbn [push_backslashes close]. now rewrite IH.
Qed.

Lemma cmd_parse_args2cmd (args : list string) (sep : string) :
  cmd_parse (_args2cmd args sep) = args.
Proof.
  unfold cmd_parse.
  rewrite <- (cmd_scan_tokens args) at 2. f_equal.
  unfold _args2cmd. destruct args as [|a args]; [reflexivity|].
  cbn [fold_left map]. rewrite join_space_cons, map_map.
  apply args2cmd_fold, args2cmd_step_nonempty.
Qed.

(** X2. Whatever the arguments, the backslash and quote convention reads the
    line [_args2cmd] writes back as the arguments, in order. *)
Theorem args2cmd_roundtrip :
  forall (args : list string) (sep : string),
    cmd_parse (_args2cmd args sep) = args.
Proof. exact cmd_parse_args2cmd. Qed.

End WindowsRoundTrip.

(** X4. Both styles write an argument the same way wherever it stands in the
    list, and join the tokens with single spaces whatever [sep] is. *)
Theorem quoted_line_is_tokens_joined :
  forall (args : list string) (sep : string),
    Quoter._args2sh args sep =
      PyStr.join " " (map (fun a => Quoter._args2sh [a] " ") args)
    /\ Quoter._args2cmd args sep =
         PyStr.join " " (map (fun a => Quoter._args2cmd [a] " ") args).
Proof.
  intros args sep. split.
  - apply (args2sh_tokens args " ").
  - apply (args2cmd_tokens args " ").
Qed.

(** * Further properties of the profile builder *)

Section ProfileCalls.
Import PyStr Quoter Reader Ecoutils Vocabulary Vocabulary2.

Ltac unfold_call :=
  cbv beta iota zeta delta
    [get_profile get_python_info bind ask try_ os_umask pure raise scrub_of];
  cbn [set_umask w_getuser w_gethostname w_getfqdn w_uname
       w_linux_distribution w_getfilesystemencoding w_getcwd w_umask
       w_platform w_argv w_executable w_version w_python_compiler
       w_python_build w_version_info].

Ltac split_call :=
  repeat match goal with
    | |- context [match map_to_list ?m with _ => _ end] =>
        destruct (map_to_list m) eqn:?
    | |- context [match ?r with Ok _ => _ | Raise _ => _ end] =>
        destruct r eqn:?
    | |- context [let (_, _) := ?x in _] => destruct x
    | |- context [if truthy ?v then _ else _] => destruct (truthy v) eqn:?
    end.

Lemma set_umask_same (w : World) : set_umask w (w_umask w) = w.
Proof. destruct w; reflexivity. Qed.

Lemma set_umask_twice (w : World) (a b : Z) :
  set_umask (set_umask w a) b = set_umask w b.
Proof. reflexivity. Qed.

Lemma umask_bits (u : Z) : 0 <= u <= 511 -> Z.land u 511 = u.
Proof.
  intros H. change 511 with (Z.ones 9).
  rewrite Z.land_ones by lia. apply Z.mod_small.
  change (2 ^ 9) with 512. lia.
Qed.

(** X6. A call, whether it returns or raises and whatever its keywords,
    leaves the process state as it found it: the temporary umask never
    outlives the call. *)
Theorem get_profile_restores_state :
  forall (g : Globals) (kwargs : gmap string value) (w w' : World)
         (r : result (gmap string value)),
    0 <= w_umask w <= 511 ->
    get_profile g kwargs w = (r, w') ->
    w' = w.
Proof.
  intros g kwargs w w' r Hu. unfold_call.
  split_call; intros [= _ <-];
    rewrite ?set_umask_twice, ?(umask_bits _ Hu), ?set_umask_same;
    reflexivity.
Qed.

Lemma get_profile_restores_state_witness :
  0 <= w_umask sample_world <= 511
  /\ snd (get_profile sample_globals ∅ sample_world) = sample_world.
Proof.
  assert (Hu : 0 <= w_umask sample_world <= 511) by (cbn; lia).
  split; [exact Hu|].
  destruct (get_profile sample_globals ∅ sample_world) as [r w'] eqn:H.
  exact (get_profile_restores_state sample_globals ∅ sample_world w' r Hu H).
Defined.

(** The entry found by following a path in a dictionary built by
    insertions. *)
Ltac solve_path :=
  cbn [lookup_path];
  repeat (first [rewrite lookup_insert_eq
                |rewrite lookup_insert_ne by discriminate];
          cbv iota);
  reflexivity.

Lemma try_except_Exception_Ok {A : Type} (r : result A) (h a : A) :
  try_except_Exception r h = Ok a -> a = probe_value r h.
Proof.
  unfold try_except_Exception, probe_value. destruct r as [a'|e].
  - now intros [= ->].
  - destruct (is_Exception e); [now intros [= ->]|discriminate].
Qed.

(** The fields of the profile a call without keywords returns. *)
Lemma plain_profile_values (ie : ImportEnv) (g : Globals) (w w' : World)
      (p : gmap string value) :
  import_module ie = Ok g ->
  get_profile g ∅ w = (Ok p, w') ->
  let dist := probe_value (w_linux_distribution w)
                (EmptyString, EmptyString, EmptyString) in
  (lookup_path ["username"] (VDict p) =
     Some (VStr (probe_value (w_getuser w) EmptyString))
   /\ lookup_path ["linux_dist_name"] (VDict p) = Some (VStr dist.1.1)
   /\ lookup_path ["linux_dist_version"] (VDict p) = Some (VStr dist.1.2))
  /\ (lookup_path ["hostname"] (VDict p) =
        VStr <$> result_value (w_gethostname w)
      /\ lookup_path ["hostfqdn"] (VDict p) =
           VStr <$> result_value (w_getfqdn w)
      /\ lookup_path ["cwd"] (VDict p) = VStr <$> result_value (w_getcwd w)
      /\ lookup_path ["fs_encoding"] (VDict p) =
           Some (VStr (w_getfilesystemencoding w))
      /\ lookup_path ["python"; "bin"] (VDict p) =
           Some (VStr (w_executable w))
      /\ lookup_path ["python"; "compiler"] (VDict p) =
           VStr <$> result_value (w_python_compiler w)
      /\ lookup_path ["python"; "build_date"] (VDict p) =
           (fun b => VStr b.2) <$> result_value (w_python_build w)
      /\ lookup_path ["python"; "version_info"] (VDict p) =
           Some (VList (w_version_info w)))
  /\ (forall u0 u1 u2 u3 u4 u5 : string,
        w_uname w = Ok (u0, u1, u2, u3, u4, u5) ->
        map (fun k => lookup_path ["uname"; k] (VDict p)) uname_keys =
          map (fun u => Some (VStr u)) [u0; u1; u2; u3; u4; u5])
  /\ lookup_path ["python"; "argv"] (VDict p) =
       Some (VStr (platform_default (w_platform w) (w_argv w) " "))
  /\ lookup_path ["python"; "version"] (VDict p) =
       Some (VStr (join " " (split (PY_GT_2 g) (w_version w))))
  /\ (lookup_path ["cpu_count"] (VDict p) = Some (VInt (CPU_COUNT g))
      /\ lookup_path ["ulimit_soft"] (VDict p) = Some (VInt (RLIMIT_FDS_SOFT g))
      /\ lookup_path ["ulimit_hard"] (VDict p) = Some (VInt (RLIMIT_FDS_HARD g))
      /\ lookup_path ["time_utc"] (VDict p) = Some (VStr (ie_utcnow ie))
      /\ lookup_path ["time_utc_offset"] (VDict p) =
           Some (VFloat (Qmake (- ie_timezone ie) 3600))
      /\ lookup_path ["_eco_version"] (VDict p) = Some (VStr "1.0.0")).
Proof.
  intros Himp. unfold_call.
  rewrite delete_empty, map_to_list_empty, lookup_empty.
  change (truthy (default (VBool false) None)) with false. cbv iota.
  split_call; try (intros; discriminate). intros [= <- <-].
  rewrite (import_module_start_time ie g Himp).
  rewrite (import_module_eco_version ie g Himp).
  rewrite <- !insert_union_l, (left_id_L ∅ (∪)).
  repeat match goal with
    | H : try_except_Exception _ _ = Ok _ |- _ =>
        apply try_except_Exception_Ok in H; rewrite <- H
    | H : _escape_shell_args _ _ _ None = Ok _ |- _ =>
        rewrite escape_shell_args_default in H; injection H as <-
    | H : ?r = Ok _ |- context [result_value ?r] => rewrite H
    end.
  cbn [result_value fmap option_fmap option_map fst snd].
  repeat split; try solve_path.
  intros u0 u1 u2 u3 u4 u5 Hu.
  injection Hu as <- <- <- <- <- <-.
  unfold uname_keys. cbn [map]. repeat f_equal; solve_path.
Qed.

(** A returned profile agrees with the profile of the call without keywords
    on every field apart from the masked ones. *)
Lemma profile_unmasked_paths (g : Globals) (kwargs : gmap string value)
      (w w' : World) (p : gmap string value) :
  get_profile g kwargs w = (Ok p, w') ->
  exists p0 : gmap string value,
    get_profile g ∅ w = (Ok p0, w')
    /\ (scrub_of kwargs = false -> p0 = p)
    /\ forall path, apart_from_scrubbed path = true ->
         lookup_path path (VDict p) = lookup_path path (VDict p0).
Proof.
  intros H. destruct (scrub_of kwargs) eqn:Hs.
  - destruct (get_profile_scrubbed g kwargs w w' p Hs H) as (p0 & H0 & Hm).
    exists p0. split; [exact H0|]. split; [discriminate|].
    destruct (mask_identifiable_Ok p0 p Hm) as (py & un & Hpy & Hun & ->).
    intros path Hpath. now apply masked_frame.
  - exists p. split; [|auto].
    exact (get_profile_unscrubbed g kwargs w w' p Hs H).
Qed.

(** X5. A keyword other than [scrub] makes the call raise [TypeError], with
    the unknown keywords as its datum, before any lookup: the process state
    is untouched. *)
Theorem get_profile_rejects_unknown_keyword :
  forall (g : Globals) (kwargs : gmap string value) (w : World),
    ~ only_scrub kwargs ->
    exists keys : list string,
      get_profile g kwargs w = (Raise (TypeError keys), w)
      /\ keys <> []
      /\ forall k, k ∈ keys <-> k <> "scrub" /\ is_Some (kwargs !! k).
Proof.
  intros g kwargs w Hkw.
  exists (map_to_list (delete "scrub" kwargs)).*1.
  split; [exact (get_profile_unexpected_keyword g kwargs w Hkw)|]. split.
  - intros Hnil. apply Hkw. unfold only_scrub.
    apply fmap_nil_inv in Hnil. now apply map_to_list_empty_iff.
  - intros k. split.
    + intros [[k' v] [-> Hin]]%list_elem_of_fmap.
      apply elem_of_map_to_list, lookup_delete_Some in Hin as [Hne Hl].
      cbn [fst]. split; [congruence|eauto].
    + intros [Hne [v Hv]]. apply list_elem_of_fmap. exists (k, v).
      split; [reflexivity|]. apply elem_of_map_to_list.
      now rewrite lookup_delete_ne by congruence.
Qed.

Lemma get_profile_rejects_unknown_keyword_witness :
  ~ only_scrub unknown_keyword
  /\ get_profile sample_globals unknown_keyword sample_world
       = (Raise (TypeError ["verbose"]), sample_world).
Proof.
  assert (Hkw : ~ only_scrub unknown_keyword).
  { unfold only_scrub, unknown_keyword. intros H.
    apply (f_equal (fun m => m !! "verbose")) in H.
    rewrite lookup_delete_ne, lookup_singleton_eq, lookup_empty in H
      by discriminate.
    discriminate H. }
  split; [exact Hkw|].
  destruct (get_profile_rejects_unknown_keyword sample_globals unknown_keyword
              sample_world Hkw) as (keys & H & _ & _).
  rewrite H. vm_compute in H. injection H as <-. reflexivity.
Defined.

(** X7. Only the truth value of [scrub] matters: two calls whose [scrub]
    keywords are both true, or both false or absent, do the same. *)
Theorem get_profile_scrub_truthiness :
  forall (g : Globals) (kw1 kw2 : gmap string value) (w : World),
    only_scrub kw1 -> only_scrub kw2 ->
    scrub_of kw1 = scrub_of kw2 ->
    get_profile g kw1 w = get_profile g kw2 w.
Proof.
  intros g kw1 kw2 w H1 H2 Hs.
  rewrite (get_profile_only_scrub g kw1 w H1).
  rewrite (get_profile_only_scrub g kw2 w H2). now rewrite Hs.
Qed.

Lemma get_profile_scrub_truthiness_witness :
  get_profile sample_globals {["scrub" := VStr "no"]} sample_world =
  get_profile sample_globals {["scrub" := VBool true]} sample_world.
Proof.
  apply get_profile_scrub_truthiness.
  - apply delete_singleton_eq.
  - apply delete_singleton_eq.
  - unfold scrub_of. now rewrite !lookup_singleton_eq.
Defined.

(** X8. Without scrubbing, a user name lookup that fails leaves the empty
    string in [username], and a Linux distribution lookup that fails leaves
    it in [linux_dist_name] and [linux_dist_version]; a lookup that succeeds
    leaves its answer. *)
Theorem get_profile_lookup_defaults :
  forall (ie : ImportEnv) (g : Globals) (kwargs : gmap string value)
         (w w' : World) (p : gmap string value),
    import_module ie = Ok g ->
    scrub_of kwargs = false ->
    get_profile g kwargs w = (Ok p, w') ->
    let dist := probe_value (w_linux_distribution w)
                  (EmptyString, EmptyString, EmptyString) in
    lookup_path ["username"] (VDict p) =
      Some (VStr (probe_value (w_getuser w) EmptyString))
    /\ lookup_path ["linux_dist_name"] (VDict p) = Some (VStr dist.1.1)
    /\ lookup_path ["linux_dist_version"] (VDict p) = Some (VStr dist.1.2).
Proof.
  intros ie g kwargs w w' p Himp Hs H.
  apply (get_profile_unscrubbed g kwargs w w' p Hs) in H.
  exact (proj1 (plain_profile_values ie g w w' p Himp H)).
Qed.

Lemma get_profile_lookup_defaults_witness :
  exists (p : gmap string value),
    fst (get_profile sample_globals ∅ sample_world) = Ok p
    /\ lookup_path ["username"] (VDict p) = Some (VStr "mahmoud")
    /\ lookup_path ["linux_dist_name"] (VDict p) = Some (VStr EmptyString)
    /\ lookup_path ["linux_dist_version"] (VDict p) = Some (VStr EmptyString).
Proof.
  destruct (sample_call_returns ∅ (delete_empty _)) as (p & w' & H).
  exists p. rewrite H. split; [reflexivity|].
  exact (get_profile_lookup_defaults sample_import sample_globals ∅
           sample_world w' p import_sample scrub_of_empty H).
Defined.

(** X9. The fields copied from the module globals are the same in any two
    calls of a process, whatever the keywords and the process state; in
    particular [time_utc] is the time of the import, not of the call. *)
Theorem get_profile_process_constants :
  forall (ie : ImportEnv) (g : Globals) (kw1 kw2 : gmap string value)
         (w1 w1' w2 w2' : World) (p1 p2 : gmap string value),
    import_module ie = Ok g ->
    get_profile g kw1 w1 = (Ok p1, w1') ->
    get_profile g kw2 w2 = (Ok p2, w2') ->
    (forall k, In k process_constant_keys ->
       lookup_path [k] (VDict p1) = lookup_path [k] (VDict p2))
    /\ lookup_path ["time_utc"] (VDict p1) = Some (VStr (ie_utcnow ie))
    /\ lookup_path ["cpu_count"] (VDict p1) = Some (VInt (CPU_COUNT g))
    /\ lookup_path ["ulimit_soft"] (VDict p1) = Some (VInt (RLIMIT_FDS_SOFT g))
    /\ lookup_path ["ulimit_hard"] (VDict p1) = Some (VInt (RLIMIT_FDS_HARD g)).
Proof.
  intros ie g kw1 kw2 w1 w1' w2 w2' p1 p2 Himp H1 H2.
  destruct (profile_unmasked_paths g kw1 w1 w1' p1 H1) as (q1 & Hq1 & _ & F1).
  destruct (profile_unmasked_paths g kw2 w2 w2' p2 H2) as (q2 & Hq2 & _ & F2).
  destruct (plain_profile_values ie g w1 w1' q1 Himp Hq1)
    as (_ & _ & _ & _ & _ & A1 & A2 & A3 & A4 & A5 & A6).
  destruct (plain_profile_values ie g w2 w2' q2 Himp Hq2)
    as (_ & _ & _ & _ & _ & B1 & B2 & B3 & B4 & B5 & B6).
  split; [|rewrite !F1 by reflexivity; auto].
  intros k Hk. unfold process_constant_keys in Hk. cbn [In] in Hk.
  repeat (destruct Hk as [<-|Hk]); [..|contradiction];
    rewrite F1, F2 by reflexivity; congruence.
Qed.

Lemma get_profile_process_constants_witness :
  exists (p1 p2 : gmap string value),
    fst (get_profile sample_globals ∅ sample_world) = Ok p1
    /\ fst (get_profile sample_globals {["scrub" := VBool true]} sample_world)
         = Ok p2
    /\ lookup_path ["time_utc"] (VDict p2) = lookup_path ["time_utc"] (VDict p1)
    /\ lookup_path ["time_utc"] (VDict p1) =
         Some (VStr "2016-05-24 07:59:40.473140").
Proof.
  destruct (sample_call_returns ∅ (delete_empty _)) as (p1 & w1 & H1).
  destruct (sample_call_returns {["scrub" := VBool true]}
              (delete_singleton_eq _ _)) as (p2 & w2 & H2).
  destruct (get_profile_process_constants sample_import sample_globals
              ∅ {["scrub" := VBool true]} sample_world w1 sample_world w2
              p1 p2 import_sample H1 H2) as (Hk & Ht & _).
  exists p1, p2. rewrite H1, H2. split; [reflexivity|]. split; [reflexivity|].
  split; [|exact Ht]. symmetry. apply Hk. cbn. tauto.
Defined.

(** X10. Without scrubbing, the profile reports the lookups of the call as
    they answered: host names, working directory, file system encoding,
    executable, compiler, the second component of the build pair, the
    version tuple, and the six components of [uname] under [system], [node],
    [release], [version], [machine] and [processor], in this order. *)
Theorem get_profile_reports_lookups :
  forall (ie : ImportEnv) (g : Globals) (kwargs : gmap string value)
         (w w' : World) (p : gmap string value),
    import_module ie = Ok g ->
    scrub_of kwargs = false ->
    get_profile g kwargs w = (Ok p, w') ->
    (lookup_path ["hostname"] (VDict p) = VStr <$> result_value (w_gethostname w)
     /\ lookup_path ["hostfqdn"] (VDict p) = VStr <$> result_value (w_getfqdn w)
     /\ lookup_path ["cwd"] (VDict p) = VStr <$> result_value (w_getcwd w)
     /\ lookup_path ["fs_encoding"] (VDict p) =
          Some (VStr (w_getfilesystemencoding w))
     /\ lookup_path ["python"; "bin"] (VDict p) = Some (VStr (w_executable w))
     /\ lookup_path ["python"; "compiler"] (VDict p) =
          VStr <$> result_value (w_python_compiler w)
     /\ lookup_path ["python"; "build_date"] (VDict p) =
          (fun b => VStr b.2) <$> result_value (w_python_build w)
     /\ lookup_path ["python"; "version_info"] (VDict p) =
          Some (VList (w_version_info w)))
    /\ (forall u0 u1 u2 u3 u4 u5 : string,
          w_uname w = Ok (u0, u1, u2, u3, u4, u5) ->
          map (fun k => lookup_path ["uname"; k] (VDict p)) uname_keys =
            map (fun u => Some (VStr u)) [u0; u1; u2; u3; u4; u5]).
Proof.
  intros ie g kwargs w w' p Himp Hs H.
  apply (get_profile_unscrubbed g kwargs w w' p Hs) in H.
  destruct (plain_profile_values ie g w w' p Himp H) as (_ & Hv & Hu & _).
  split; [exact Hv|exact Hu].
Qed.

Lemma get_profile_reports_lookups_witness :
  exists (p : gmap string value),
    fst (get_profile sample_globals ∅ sample_world) = Ok p
    /\ lookup_path ["hostname"] (VDict p) = Some (VStr "host")
    /\ lookup_path ["uname"; "machine"] (VDict p) = Some (VStr "x86_64")
    /\ lookup_path ["python"; "build_date"] (VDict p) =
         Some (VStr "Jun 22 2015").
Proof.
  destruct (sample_call_returns ∅ (delete_empty _)) as (p & w' & H).
  destruct (get_profile_reports_lookups sample_import sample_globals ∅
              sample_world w' p import_sample scrub_of_empty H)
    as ((Hh & _ & _ & _ & _ & _ & Hb & _) & Hu).
  specialize (Hu _ _ _ _ _ _ eq_refl). injection Hu as _ _ _ _ Hm _.
  exists p. rewrite H. auto.
Defined.

(** X16. Without scrubbing, [python.argv] is the command line quoted in the
    style of the platform, and reading it back in that style gives
    [sys.argv]: with the Windows convention on win32, with the POSIX
    tokenizer elsewhere. *)
Theorem get_profile_argv_reads_back :
  forall (ie : ImportEnv) (g : Globals) (kwargs : gmap string value)
         (w w' : World) (p : gmap string value),
    import_module ie = Ok g ->
    scrub_of kwargs = false ->
    get_profile g kwargs w = (Ok p, w') ->
    exists line : string,
      lookup_path ["python"; "argv"] (VDict p) = Some (VStr line)
      /\ if String.eqb (w_platform w) "win32"
         then cmd_parse line = w_argv w
         else sh_tokenize line = Some (w_argv w).
Proof.
  intros ie g kwargs w w' p Himp Hs H.
  apply (get_profile_unscrubbed g kwargs w w' p Hs) in H.
  destruct (plain_profile_values ie g w w' p Himp H)
    as (_ & _ & _ & Hargv & _).
  eexists. split; [exact Hargv|]. unfold platform_default.
  destruct (String.eqb (w_platform w) "win32").
  - apply cmd_parse_args2cmd.
  - apply sh_tokenize_args2sh.
Qed.

Lemma get_profile_argv_reads_back_witness :
  exists (p : gmap string value) (line : string),
    fst (get_profile sample_globals ∅ sample_world) = Ok p
    /\ lookup_path ["python"; "argv"] (VDict p) = Some (VStr line)
    /\ sh_tokenize line = Some ["ecoutils.py"; "a b"].
Proof.
  destruct (sample_call_returns ∅ (delete_empty _)) as (p & w' & H).
  destruct (get_profile_argv_reads_back sample_import sample_globals ∅
              sample_world w' p import_sample scrub_of_empty H)
    as (line & Hl & Hr).
  exists p, line. rewrite H. auto.
Defined.

End ProfileCalls.

Section VersionString.
Import PyStr Quoter Ecoutils Vocabulary Vocabulary2.

Lemma split_from_word (py3 : bool) (w rest : string) (cur : option string) :
  no_space py3 w = true ->
  split_from py3 cur (w +:+ rest) = split_from py3 (push_str cur w) rest.
Proof.
  revert cur. induction w as [|c w IH]; intros cur Hw; [reflexivity|].
  cbn [no_space] in Hw. apply andb_true_iff in Hw as [Hc Hw].
  apply negb_true_iff in Hc.
  rewrite str_app_cons. cbn [split_from]. rewrite Hc, IH by assumption.
  f_equal. destruct w as [|d w]; [reflexivity|].
  cbn [push_str default from_option id]. now rewrite str_app_assoc.
Qed.

Lemma no_space_snoc (py3 : bool) (w : string) (c : ascii) :
  no_space py3 w = true -> isspace py3 c = false ->
  no_space py3 (w +:+ str1 c) = true.
Proof.
  intros Hw Hc. induction w as [|d w IH].
  - change (no_space py3 (EmptyString +:+ str1 c))
      with (negb (isspace py3 c) && true).
    now rewrite Hc.
  - rewrite str_app_cons. cbn [no_space] in *.
    apply andb_true_iff in Hw as [Hd Hw]. now rewrite Hd, IH.
Qed.

Lemma split_from_words (py3 : bool) (s : string) (cur : option string) :
  (forall w, cur = Some w -> is_word py3 w) ->
  Forall (is_word py3) (split_from py3 cur s).
Proof.
  revert cur. induction s as [|c s IH]; intros cur Hcur.
  - cbn [split_from]. destruct cur; auto.
  - cbn [split_from]. destruct (isspace py3 c) eqn:Hc.
    + destruct cur as [w|].
      * constructor; [auto|]. apply IH. discriminate.
      * apply IH. discriminate.
    + apply IH. intros w [= <-]. split.
      * destruct (default EmptyString cur); discriminate.
      * apply no_space_snoc; [|exact Hc].
        destruct cur as [w|]; [apply (Hcur w eq_refl)|reflexivity].
Qed.

Lemma isspace_space (py3 : bool) : isspace py3 space = true.
Proof. destruct py3; reflexivity. Qed.

Lemma split_join (py3 : bool) (ws : list string) :
  Forall (is_word py3) ws -> split py3 (join " " ws) = ws.
Proof.
  unfold split. induction 1 as [|w ws [Hne Hw] Hws IH]; [reflexivity|].
  destruct ws as [|w2 ws].
  - cbn [join]. rewrite <- (str_app_nil_r w) at 1.
    rewrite split_from_word by assumption.
    rewrite push_str_nonempty by assumption. reflexivity.
  - rewrite join_cons_cons, split_from_word by assumption.
    rewrite push_str_nonempty by assumption.
    change (" " +:+ ?x) with (String space x).
    cbn [split_from]. rewrite isspace_space. cbn [default from_option id].
    now rewrite IH.
Qed.

Lemma normalize_idempotent (py3 : bool) (s : string) :
  normalize py3 (normalize py3 s) = normalize py3 s.
Proof.
  unfold normalize. rewrite split_join; [reflexivity|].
  apply split_from_words. discriminate.
Qed.

(** X17. Scrubbed or not, [python.version] is [sys.version] with its white
    space normalised: the words of [sys.version] joined by single spaces, a
    text that normalising again leaves as it is. *)
Theorem get_profile_version_normalized :
  forall (ie : ImportEnv) (g : Globals) (kwargs : gmap string value)
         (w w' : World) (p : gmap string value),
    import_module ie = Ok g ->
    get_profile g kwargs w = (Ok p, w') ->
    exists v : string,
      lookup_path ["python"; "version"] (VDict p) = Some (VStr v)
      /\ v = join " " (split (PY_GT_2 g) (w_version w))
      /\ Forall (is_word (PY_GT_2 g)) (split (PY_GT_2 g) (w_version w))
      /\ normalize (PY_GT_2 g) v = v.
Proof.
  intros ie g kwargs w w' p Himp H.
  destruct (profile_unmasked_paths g kwargs w w' p H) as (p0 & H0 & _ & F).
  destruct (plain_profile_values ie g w w' p0 Himp H0)
    as (_ & _ & _ & _ & Hv & _).
  eexists. split; [rewrite F by reflexivity; exact Hv|].
  split; [reflexivity|]. split.
  - apply split_from_words. discriminate.
  - apply normalize_idempotent.
Qed.

Lemma get_profile_version_normalized_witness :
  exists (p : gmap string value),
    fst (get_profile sample_globals {["scrub" := VBool true]} sample_world)
      = Ok p
    /\ lookup_path ["python"; "version"] (VDict p) =
         Some (VStr "2.7.6 (default, Jun 22 2015) [GCC 4.8.2]").
Proof.
  destruct (sample_call_returns {["scrub" := VBool true]}
              (delete_singleton_eq _ _)) as (p & w' & H).
  destruct (get_profile_version_normalized sample_import sample_globals _
              sample_world w' p import_sample H) as (v & Hl & -> & _).
  exists p. rewrite H. split; [reflexivity|exact Hl].
Defined.

End VersionString.

(** * Properties of the module body *)

Section ModuleBody.
Import PyStr Quoter Ecoutils Vocabulary Vocabulary2.

Ltac run_module H :=
  unfold import_module in H;
  repeat match type of H with
    | context [result_bind (try_except_Exception ?r ?h) _] =>
        let E := fresh "E" in
        destruct (try_except_Exception r h) eqn:E;
        cbn [result_bind] in H; [|discriminate H];
        apply try_except_Exception_Ok in E
    end;
  injection H as <-; cbn [SQLITE_VERSION OPENSSL_VERSION TKINTER_VERSION
    ZLIB_VERSION EXPAT_VERSION CPU_COUNT HAVE_THREADING HAVE_IPV6
    HAVE_READLINE RLIMIT_FDS_SOFT RLIMIT_FDS_HARD INSTANCE_ID PY_GT_2
    IS_64BIT HAVE_UCS4]; subst.

(** X11. After an import, every probe global holds the answer of its probe,
    or, when the probe raised, its default: the empty string for a version,
    false for a capability, zero for a count or a limit.  The OpenSSL version
    is the placeholder [OpenSSL >0.8.0] when the ssl module loads but has no
    version attribute. *)
Theorem import_module_probe_values :
  forall (ie : ImportEnv) (g : Globals),
    import_module ie = Ok g ->
    SQLITE_VERSION g = probe_value (ie_sqlite_version ie) EmptyString
    /\ TKINTER_VERSION g = probe_value (ie_tkinter_TkVersion ie) EmptyString
    /\ ZLIB_VERSION g = probe_value (ie_zlib_version ie) EmptyString
    /\ EXPAT_VERSION g = probe_value (ie_expat_version ie) EmptyString
    /\ OPENSSL_VERSION g =
         match ie_import_ssl ie, ie_ssl_OPENSSL_VERSION ie with
         | Ok _, Ok v => v
         | Ok _, Raise AttributeError => "OpenSSL >0.8.0"
         | _, _ => EmptyString
         end
    /\ HAVE_READLINE g = is_Ok (ie_import_readline ie)
    /\ HAVE_THREADING g = is_Ok (ie_import_threading ie)
    /\ HAVE_IPV6 g = probe_value (ie_has_ipv6 ie) false
    /\ CPU_COUNT g = probe_value (ie_cpu_count ie) 0
    /\ (RLIMIT_FDS_SOFT g, RLIMIT_FDS_HARD g) =
         probe_value (ie_getrlimit_NOFILE ie) (0, 0).
Proof.
  intros ie g H. run_module H. repeat split.
  - unfold openssl_inner.
    destruct (ie_import_ssl ie); [|reflexivity]. cbn [result_bind].
    destruct (ie_ssl_OPENSSL_VERSION ie) as [v|[]]; reflexivity.
  - destruct (ie_import_readline ie); reflexivity.
  - destruct (ie_import_threading ie); reflexivity.
  - destruct (probe_value (ie_getrlimit_NOFILE ie) (0, 0)); reflexivity.
Qed.

Lemma import_module_probe_values_witness :
  SQLITE_VERSION sample_globals = "3.8.2"
  /\ TKINTER_VERSION sample_globals = EmptyString
  /\ OPENSSL_VERSION sample_globals = "OpenSSL >0.8.0".
Proof.
  destruct (import_module_probe_values sample_import sample_globals
              import_sample) as (H1 & H2 & _ & _ & H5 & _).
  split; [exact H1|]. split; [exact H2|exact H5].
Defined.

(** X12. The import succeeds as soon as no probe raises an exception that
    [except Exception] lets through: no number of failing probes makes the
    module unusable. *)
Theorem import_module_survives_probe_failures :
  forall ie : ImportEnv,
    probes_catchable ie = true ->
    exists g : Globals, import_module ie = Ok g.
Proof. exact import_module_isolates_probes. Qed.

Lemma import_module_survives_probe_failures_witness :
  exists g : Globals, import_module sample_import = Ok g.
Proof.
  exact (import_module_survives_probe_failures sample_import eq_refl).
Defined.

Lemma substring_0_app (d t : string) :
  String.substring 0 (String.length d) (d +:+ t) = d.
Proof.
  induction d as [|c d IH].
  - cbn [String.length]. destruct (EmptyString +:+ t); reflexivity.
  - rewrite str_app_cons. cbn [String.length String.substring].
    now rewrite IH.
Qed.

Lemma slice_hex_long (d : string) :
  slice_2_m1 ("0x" +:+ d +:+ "L") = d.
Proof.
  unfold slice_2_m1.
  change ("0x" +:+ d +:+ "L") with (String "0" (String "x" (d +:+ "L"))).
  cbn [String.length String.substring]. rewrite str_length_app.
  cbn [String.length].
  replace (S (S (String.length d + 1)) - 1 - 2)%nat with (String.length d)
    by lia.
  apply substring_0_app.
Qed.

Lemma slice_hex_int (d : string) :
  slice_2_m1 ("0x" +:+ d) = but_last d.
Proof.
  unfold slice_2_m1, but_last.
  change ("0x" +:+ d) with (String "0" (String "x" d)).
  cbn [String.length String.substring].
  replace (S (S (String.length d)) - 1 - 2)%nat with (String.length d - 1)%nat
    by lia.
  reflexivity.
Qed.

(** X13. On Python 2, where [hex] ends a long in [L], the instance identifier
    is every hexadecimal digit of the 128-bit draw; on Python 3, where there
    is no [L] to cut, it loses its last digit. *)
Theorem import_module_instance_id :
  forall (ie : ImportEnv) (g : Globals),
    import_module ie = Ok g ->
    PY_GT_2 g = (2 <? ie_version_major ie)
    /\ INSTANCE_ID g =
         lower (if PY_GT_2 g
                then but_last (hex_digits (ie_getrandbits_128 ie))
                else hex_digits (ie_getrandbits_128 ie)).
Proof.
  intros ie g H. run_module H. split; [reflexivity|].
  unfold hex. destruct (2 <? ie_version_major ie).
  - now rewrite slice_hex_int.
  - now rewrite slice_hex_long.
Qed.

Lemma import_module_instance_id_witness :
  INSTANCE_ID sample_globals = "beef".
Proof.
  destruct (import_module_instance_id sample_import sample_globals
              import_sample) as [_ H].
  rewrite H. reflexivity.
Defined.

End ModuleBody.

(** * Properties of the JSON fallback *)

Section FakeJsonFacts.
Import PyStr Vocabulary Vocabulary2 FakeJson.

Lemma replace_dquote_no_dquote (s : string) :
  no_dquote (replace (str1 dquote) EmptyString s) = true.
Proof.
  unfold replace. induction s as [|c s IH]; [reflexivity|].
  cbn [replace_from startswith String.length Nat.sub str1].
  rewrite Ascii.eqb_sym. destruct (Ascii.eqb c dquote) eqn:Hc; cbn [andb].
  - exact IH.
  - cbn [no_dquote]. now rewrite Hc, IH.
Qed.

Lemma replace_escaped_quote_noop (t : string) :
  no_dquote t = true ->
  replace (String backslash (str1 dquote)) EmptyString t = t.
Proof.
  unfold replace. induction t as [|c t IH]; intros Ht; [reflexivity|].
  cbn [no_dquote] in Ht. apply andb_true_iff in Ht as [_ Ht].
  cbn [replace_from].
  change (startswith (String backslash (str1 dquote)) (String c t))
    with (Ascii.eqb backslash c && startswith (str1 dquote) t).
  assert (Hnext : startswith (str1 dquote) t = false).
  { destruct t as [|d t]; [reflexivity|]. cbn [startswith str1].
    cbn [no_dquote] in Ht. apply andb_true_iff in Ht as [Hd _].
    apply negb_true_iff in Hd. now rewrite Ascii.eqb_sym, Hd. }
  rewrite Hnext, Bool.andb_false_r. now rewrite IH.
Qed.

Lemma quoted_is_no_constant (res : string) :
  startswith "'" res || startswith "u'" res = true ->
  String.eqb res "None" = false /\ String.eqb res "True" = false
  /\ String.eqb res "False" = false.
Proof.
  destruct res as [|c res]; [discriminate|].
  cbn [startswith String.eqb]. intros H.
  assert (Hc : c = "'"%char \/ c = "u"%char).
  { apply orb_true_iff in H as [H|H]; apply andb_true_iff in H as [H _];
      apply Ascii.eqb_eq in H; auto. }
  destruct Hc as [-> | ->]; repeat split; reflexivity.
Qed.

(** X14. When the text [_real_safe_repr] gives starts with a single quote,
    or with [u] and a single quote, [_fake_safe_repr] returns the text without
    its [u], first and last character, stripped of every double quote and put
    between double quotes: the second [replace] of the source never changes
    anything, and a double quote inside the string is lost. *)
Theorem fake_safe_repr_string :
  forall (res : string) (is_read is_rec : bool),
    startswith "'" res || startswith "u'" res = true ->
    let inner :=
      slice_1_m1 (if startswith "u" res then slice_1 res else res) in
    let body := replace (str1 dquote) EmptyString inner in
    _fake_safe_repr (res, is_read, is_rec) =
      (str1 dquote +:+ body +:+ str1 dquote, is_read, is_rec)
    /\ no_dquote body = true.
Proof.
  intros res is_read is_rec H inner body.
  split; [|apply replace_dquote_no_dquote].
  destruct (quoted_is_no_constant res H) as (H1 & H2 & H3).
  unfold _fake_safe_repr. rewrite H1, H2, H3, H. cbn [negb].
  fold inner. fold body.
  now rewrite (replace_escaped_quote_noop body (replace_dquote_no_dquote inner)).
Qed.

Lemma fake_safe_repr_string_witness :
  _fake_safe_repr ("u'a" +:+ dq +:+ "b'", true, false) =
    (dq +:+ "ab" +:+ dq, true, false).
Proof.
  destruct (fake_safe_repr_string ("u'a" +:+ dq +:+ "b'") true false eq_refl)
    as [H _].
  rewrite H. reflexivity.
Defined.

(** X15. Whatever [_real_safe_repr] gives, the text [_fake_safe_repr]
    returns does not start with a single quote, nor with [u] and a single
    quote, and the two flags are passed on. *)
Theorem fake_safe_repr_never_single_quoted :
  forall (res : string) (is_read is_rec : bool),
    exists out : string,
      _fake_safe_repr (res, is_read, is_rec) = (out, is_read, is_rec)
      /\ startswith "'" out = false
      /\ startswith "u'" out = false.
Proof.
  intros res is_read is_rec. unfold _fake_safe_repr.
  set (r1 := if String.eqb res "None" then "null" else res).
  set (r2 := if String.eqb r1 "True" then "true" else r1).
  set (r3 := if String.eqb r2 "False" then "false" else r2).
  destruct (startswith "'" r3 || startswith "u'" r3) eqn:E; cbn [negb].
  - eexists. split; [reflexivity|]. split; reflexivity.
  - apply orb_false_iff in E as [E1 E2]. eauto.
Qed.

End FakeJsonFacts.
